(** * Stochastic unit layers of an RBM/DBM (hdp_dbm/rbm_units.py)

    A shallow embedding of the module [rbm_units] and the properties of its
    three layers (Bernoulli, Multinomial, Gaussian).

    Idealisations, stated once:
    - floating-point numbers of every float dtype are modelled by the real
      numbers [R]; rounding, infinities and NaN are outside the model (in
      particular the value of a division by zero means nothing here, and no
      theorem below uses it);
    - a tensor is its shape together with its entries as a function of the
      multi-index; entries outside the shape carry no meaning;
    - an operation that TensorFlow refuses (operands that do not broadcast, a
      reduction over an empty axis, indices out of bounds) yields [None];
    - random numbers come from explicit sources: the draws of
      [tf.random_uniform] / [tf.random_normal] are functions of the seed and
      the position, a numpy [RandomState] is a stream with a cursor. *)

From Stdlib Require Import Reals Lra Lia List ZArith Bool PeanoNat.
Import ListNotations.

Local Open Scope R_scope.

(** ** Tensors and the TensorFlow / numpy operations the module uses *)

Record tensor (A : Type) : Type := Tensor { shape : list nat; get : list nat -> A }.
Arguments Tensor {A} shape get.
Arguments shape {A} t.
Arguments get {A} t idx.

(** [idx] is a position of a tensor of shape [s]. *)
Definition in_range (idx s : list nat) : Prop := Forall2 lt idx s.

Definition scalar {A} (a : A) : tensor A := Tensor [] (fun _ => a).

Definition tmap {A B} (f : A -> B) (t : tensor A) : tensor B :=
  Tensor (shape t) (fun idx => f (get t idx)).

(** Failure of a library operation is [None]; [x <- c ;; k] sequences. *)
Definition obind {A B} (c : option A) (k : A -> option B) : option B :=
  match c with Some a => k a | None => None end.
Notation "x <- c ;; k" := (obind c (fun x => k))
  (at level 61, c at next level, right associativity).

(** Iteration over [0 .. n-1] and over all positions of a shape. *)
Fixpoint fold_upto {A} (op : A -> A -> A) (e : A) (n : nat) (f : nat -> A) : A :=
  match n with
  | O => e
  | S n' => op (fold_upto op e n' f) (f n')
  end.

Fixpoint fold_idx {A} (op : A -> A -> A) (e : A) (s : list nat) (f : list nat -> A) : A :=
  match s with
  | [] => f []
  | d :: s' => fold_upto op e d (fun i => fold_idx op e s' (fun idx => f (i :: idx)))
  end.

Definition sum_upto : nat -> (nat -> R) -> R := fold_upto Rplus 0.
Definition sum_idx : list nat -> (list nat -> R) -> R := fold_idx Rplus 0.
Definition sumZ_idx : list nat -> (list nat -> Z) -> Z := fold_idx Z.add 0%Z.
Definition all_upto : nat -> (nat -> bool) -> bool := fold_upto andb true.
Definition all_idx : list nat -> (list nat -> bool) -> bool := fold_idx andb true.

(** *** Broadcasting (numpy rules: shapes are aligned on their last axes, an
    axis of length 1 is stretched) *)

Definition bdim (d1 d2 : nat) : option nat :=
  if d1 =? d2 then Some d1
  else if d1 =? 1 then Some d2
  else if d2 =? 1 then Some d1
  else None.

Fixpoint bshape_rev (r1 r2 : list nat) : option (list nat) :=
  match r1, r2 with
  | [], r => Some r
  | r, [] => Some r
  | d1 :: r1', d2 :: r2' =>
      d <- bdim d1 d2 ;; r <- bshape_rev r1' r2' ;; Some (d :: r)
  end.

Definition broadcast_shape (s1 s2 : list nat) : option (list nat) :=
  r <- bshape_rev (rev s1) (rev s2) ;; Some (rev r).

(** The position of an operand of shape [s] read for the position [idx] of
    the broadcast result (both given last axis first). *)
Fixpoint bindex_rev (i s : list nat) : list nat :=
  match i, s with
  | i0 :: i', d :: s' => (if d =? 1 then 0%nat else i0) :: bindex_rev i' s'
  | _, _ => []
  end.

Definition bindex (idx s : list nat) : list nat :=
  rev (bindex_rev (rev idx) (rev s)).

Definition broadcast2 {A B C} (f : A -> B -> C) (a : tensor A) (b : tensor B)
  : option (tensor C) :=
  s <- broadcast_shape (shape a) (shape b) ;;
  Some (Tensor s (fun idx =>
          f (get a (bindex idx (shape a))) (get b (bindex idx (shape b))))).

(** *** Elementwise arithmetic and comparison *)

Definition tf_add := broadcast2 Rplus.
Definition tf_sub := broadcast2 Rminus.
Definition tf_multiply := broadcast2 Rmult.
Definition tf_div := broadcast2 Rdiv.

Definition Rltb (x y : R) : bool := if Rlt_dec x y then true else false.
Definition Rgeb (x y : R) : bool := if Rge_dec x y then true else false.

Definition tf_less := broadcast2 Rltb.
Definition tf_greater_equal := broadcast2 Rgeb.

(** Floating dtypes; all of them are modelled by [R]. *)
Inductive dtype := float16 | float32 | float64.

(** [tf.cast(_, dtype)] to a floating dtype, from bool and from int32. *)
Definition tf_cast_bool (t : tensor bool) (dt : dtype) : tensor R :=
  tmap (fun b : bool => if b then 1 else 0) t.
Definition tf_cast_int (t : tensor Z) (dt : dtype) : tensor R :=
  tmap IZR t.

(** int32 arithmetic: two's complement wrap-around. *)
Definition wrap32 (z : Z) : Z := ((z + 2 ^ 31) mod 2 ^ 32 - 2 ^ 31)%Z.
Arguments wrap32 : simpl never.

(** [tf.to_int32] of a bool tensor, and of an int64 / int32 tensor. *)
Definition tf_to_int32_bool (t : tensor bool) : tensor Z :=
  tmap (fun b : bool => if b then 1%Z else 0%Z) t.
Definition tf_to_int32 (t : tensor Z) : tensor Z := tmap wrap32 t.

(** *** Activations *)

(** [tf.nn.sigmoid]: y = 1 / (1 + exp(-x)), elementwise. *)
Definition sigmoid (v : R) : R := 1 / (1 + exp (- v)).
Definition tf_nn_sigmoid (x : tensor R) : tensor R := tmap sigmoid x.

(** Replace the last component of a position. *)
Definition set_last (idx : list nat) (k : nat) : list nat := removelast idx ++ [k].

(** [tf.nn.softmax] (last axis): exp(x) / reduce_sum(exp(x), axis=-1); the
    operand must have rank at least 1. *)
Definition tf_nn_softmax (x : tensor R) : option (tensor R) :=
  match shape x with
  | [] => None
  | s => Some (Tensor s (fun idx =>
           exp (get x idx) /
           sum_upto (last s 0%nat) (fun k => exp (get x (set_last idx k)))))
  end.

(** *** Reductions and scans *)

(** [tf.reduce_sum] over all axes: a scalar. *)
Definition tf_reduce_sum (t : tensor R) : tensor R :=
  scalar (sum_idx (shape t) (get t)).

(** [tf.cumsum(_, axis=-1)]: inclusive running sum along the last axis. *)
Definition tf_cumsum (t : tensor R) : option (tensor R) :=
  match shape t with
  | [] => None
  | s => Some (Tensor s (fun idx =>
           sum_upto (S (last idx 0%nat)) (fun k => get t (set_last idx k))))
  end.

(** First position of the largest of [f 0 .. f n]. *)
Fixpoint argmax_to (f : nat -> Z) (n : nat) : nat :=
  match n with
  | O => O
  | S n' => let m := argmax_to f n' in if (f m <? f (S n'))%Z then S n' else m
  end.

(** [tf.argmax(_, axis=-1)]: int64 positions; the reduced axis must not be
    empty.  Among equal largest entries the first one is taken, as numpy's
    argmax and TensorFlow's sequential kernel do. *)
Definition tf_argmax (t : tensor Z) : option (tensor Z) :=
  match shape t with
  | [] => None
  | s => match last s 0%nat with
         | O => None
         | S n => Some (Tensor (removelast s) (fun pre =>
                    Z.of_nat (argmax_to (fun k => get t (pre ++ [k])) n)))
         end
  end.

(** *** Shapes, ranges, packing *)

(** [tf.shape]: the dimensions as a rank-1 int32 tensor. *)
Definition tf_shape {A} (t : tensor A) : tensor Z :=
  Tensor [length (shape t)]
         (fun idx => wrap32 (Z.of_nat (nth (hd 0%nat idx) (shape t) 0%nat))).

(** [t[0]]: the first slice along the first axis. *)
Definition getitem0 {A} (t : tensor A) : option (tensor A) :=
  match shape t with
  | S _ :: s' => Some (Tensor s' (fun idx => get t (0%nat :: idx)))
  | _ => None
  end.

(** [tf.range(limit)] for a scalar int32 limit: 0, 1, ..., limit-1. *)
Definition tf_range (limit : tensor Z) : option (tensor Z) :=
  match shape limit with
  | [] => Some (Tensor [Z.to_nat (get limit [])] (fun idx => Z.of_nat (hd 0%nat idx)))
  | _ => None
  end.

Definition tf_ones_like (t : tensor Z) : tensor Z := tmap (fun _ => 1%Z) t.

(** A Python list [[a, b]] of two tensors where a tensor is expected is
    packed along a new first axis; the two must have the same shape. *)
Definition tf_pack2 {A} (a b : tensor A) : option (tensor A) :=
  if list_eq_dec Nat.eq_dec (shape a) (shape b)
  then Some (Tensor (2%nat :: shape a) (fun idx =>
               match idx with
               | O :: rest => get a rest
               | _ :: rest => get b rest
               | [] => get a []
               end))
  else None.

(** [tf.transpose] with the default permutation: all axes reversed. *)
Definition tf_transpose {A} (t : tensor A) : tensor A :=
  Tensor (rev (shape t)) (fun idx => get t (rev idx)).

(** The dimensions held by a rank-1 shape tensor. *)
Definition dims_of (sh : tensor Z) : option (list nat) :=
  match shape sh with
  | [k] => if all_upto k (fun i => (0 <=? get sh [i])%Z)
           then Some (map (fun i => Z.to_nat (get sh [i])) (seq 0 k))
           else None
  | _ => None
  end.

(** [tf.scatter_nd(indices, updates, shape)]: a zero tensor of the given
    shape to which every update is added at the position its index row
    names; updates at the same position add up; an index outside the shape
    is refused. *)
Definition tf_scatter_nd (indices updates sh : tensor Z) : option (tensor Z) :=
  dims <- dims_of sh ;;
  match shape indices with
  | [] => None
  | si =>
      let K := last si 0%nat in
      let batch := removelast si in
      if negb (K <=? length dims) then None
      else if negb (if list_eq_dec Nat.eq_dec (shape updates) (batch ++ skipn K dims)
                    then true else false) then None
      else if negb (all_idx batch (fun bi =>
                      all_upto K (fun k =>
                        (0 <=? get indices (bi ++ [k]))%Z &&
                        (get indices (bi ++ [k]) <? Z.of_nat (nth k dims 0%nat))%Z)))
      then None
      else Some (Tensor dims (fun idx =>
             sumZ_idx batch (fun bi =>
               if all_upto K (fun k =>
                    (get indices (bi ++ [k]) =? Z.of_nat (nth k idx 0%nat))%Z)
               then get updates (bi ++ skipn K idx)
               else 0%Z)))
  end.

Definition tf_identity {A} (t : tensor A) : tensor A := t.

(** *** Random sources *)

(** The draws behind TensorFlow's random ops, by seed and position. *)
Record tf_random : Type := TfRandom {
  uniform01 : option Z -> nat -> R;     (* draws of [0, 1) *)
  std_normal : option Z -> nat -> R     (* draws of the normal distribution *)
}.

Definition uniform_ok (rnd : tf_random) : Prop :=
  forall seed k, 0 <= uniform01 rnd seed k < 1.

(** [tf.random_uniform((n,), minval, maxval, dtype, seed)]. *)
Definition tf_random_uniform (rnd : tf_random) (n : nat) (minval maxval : R)
  (dt : dtype) (seed : option Z) : tensor R :=
  Tensor [n] (fun idx => minval + (maxval - minval) * uniform01 rnd seed (hd 0%nat idx)).

(** [tf.random_normal((n,), dtype, seed)]. *)
Definition tf_random_normal (rnd : tf_random) (n : nat) (dt : dtype)
  (seed : option Z) : tensor R :=
  Tensor [n] (fun idx => std_normal rnd seed (hd 0%nat idx)).

(** A numpy [RandomState]: two streams and the cursor that a draw advances. *)
Record RandomState : Type := MkRandomState {
  rs_uniform : nat -> R;
  rs_normal : nat -> R;
  rs_pos : nat
}.

Definition rs_advance (g : RandomState) (k : nat) : RandomState :=
  MkRandomState (rs_uniform g) (rs_normal g) (rs_pos g + k).

(** [rng.rand(d0, d1)] and [rng.randn(d0, d1)]: the array drawn and the
    generator after the draw. *)
Definition np_rand (g : RandomState) (d0 d1 : nat) : tensor R * RandomState :=
  (Tensor [d0; d1] (fun idx =>
     rs_uniform g (rs_pos g + nth 0 idx 0%nat * d1 + nth 1 idx 0%nat)),
   rs_advance g (d0 * d1)).

Definition np_randn (g : RandomState) (d0 d1 : nat) : tensor R * RandomState :=
  (Tensor [d0; d1] (fun idx =>
     rs_normal g (rs_pos g + nth 0 idx 0%nat * d1 + nth 1 idx 0%nat)),
   rs_advance g (d0 * d1)).

(** ** The layers *)

(** The fields set by [BaseLayer.__init__(n_units, tf_dtype=tf.float32)]. *)
Record fields : Type := Fields { n_units : nat; tf_dtype : dtype }.

Inductive exn : Type := NotImplementedError.

(** What a Python-level method call gives back. *)
Inductive pyval : Type :=
| VNone
| VTensor (t : tensor R).

(** [Raise]: a [raise] statement of the module was executed.  [Refused]: the
    tensor library refused the operands of one of its operations; this is the
    library's failure, the module has no error path of its own for it. *)
Inductive outcome : Type :=
| Return (v : pyval)
| Raise (e : exn)
| Refused.

Definition of_tensor (o : option (tensor R)) : outcome :=
  match o with Some t => Return (VTensor t) | None => Refused end.

Module BaseLayer.

Definition __init__ (n_units : nat) (tf_dtype : dtype) : fields :=
  Fields n_units tf_dtype.

(* raise NotImplementedError *)
Definition init (self : fields) (random_seed : option Z) : outcome :=
  Raise NotImplementedError.

(* raise NotImplementedError *)
Definition activation (self : fields) (x b : tensor R) : outcome :=
  Raise NotImplementedError.

(* pass *)
Definition make_rand (self : fields) (batch_size : nat) (rng : RandomState)
  : outcome * RandomState :=
  (Return VNone, rng).

(* pass *)
Definition sample (self : fields) (rand_data means : tensor R) : outcome :=
  Return VNone.

End BaseLayer.

Module BernoulliLayer.

Definition __init__ (n_units : nat) (tf_dtype : dtype) : fields :=
  BaseLayer.__init__ n_units tf_dtype.

Definition init (rnd : tf_random) (self : fields) (random_seed : option Z)
  : tensor R :=
  tf_random_uniform rnd (n_units self) 0 1 (tf_dtype self) random_seed.

Definition activation (self : fields) (x b : tensor R) : tensor R :=
  tf_nn_sigmoid x.

Definition make_rand (self : fields) (batch_size : nat) (rng : RandomState)
  : tensor R * RandomState :=
  np_rand rng batch_size (n_units self).

Definition sample (self : fields) (rand_data means : tensor R)
  : option (tensor R) :=
  lt <- tf_less rand_data means ;;
  Some (tf_cast_bool lt (tf_dtype self)).

End BernoulliLayer.

Module MultinomialLayer.

Definition __init__ (n_units : nat) (tf_dtype : dtype) : fields :=
  BaseLayer.__init__ n_units tf_dtype.

Definition init (rnd : tf_random) (self : fields) (random_seed : option Z)
  : option (tensor R) :=
  let t := tf_random_uniform rnd (n_units self) 0 1 (tf_dtype self) random_seed in
  t <- tf_div t (tf_reduce_sum t) ;;
  Some (tf_identity t).

Definition activation (self : fields) (x b : tensor R) : option (tensor R) :=
  tf_nn_softmax x.

Definition make_rand (self : fields) (batch_size : nat) (rng : RandomState)
  : tensor R * RandomState :=
  np_rand rng batch_size 1.

Definition sample (self : fields) (rand_data means : tensor R)
  : option (tensor R) :=
  cumprobs <- tf_cumsum means ;;
  ge <- tf_greater_equal cumprobs rand_data ;;
  let t := tf_to_int32_bool ge in
  am <- tf_argmax t ;;
  let ind := tf_to_int32 am in
  n0 <- getitem0 (tf_shape ind) ;;
  rg <- tf_range n0 ;;
  let r := tf_to_int32 rg in
  packed <- tf_pack2 r ind ;;
  samples <- tf_scatter_nd (tf_transpose packed)
                           (tf_ones_like r)
                           (tf_to_int32 (tf_shape cumprobs)) ;;
  Some (tf_cast_int samples (tf_dtype self)).

End MultinomialLayer.

Module GaussianLayer.

(* self.sigma = np.asarray(sigma): an array of any shape, a scalar included *)
Definition __init__ (sigma : tensor R) (n_units : nat) (tf_dtype : dtype)
  : fields * tensor R :=
  (BaseLayer.__init__ n_units tf_dtype, sigma).

Definition init (rnd : tf_random) (self : fields) (sigma : tensor R)
  (random_seed : option Z) : option (tensor R) :=
  let t := tf_random_normal rnd (n_units self) (tf_dtype self) random_seed in
  tf_multiply t sigma.

Definition activation (self : fields) (sigma : tensor R) (x b : tensor R)
  : option (tensor R) :=
  xs <- tf_multiply x sigma ;;
  om <- tf_sub (scalar 1) sigma ;;
  bs <- tf_multiply b om ;;
  tf_add xs bs.

Definition make_rand (self : fields) (sigma : tensor R) (batch_size : nat)
  (rng : RandomState) : tensor R * RandomState :=
  np_randn rng batch_size (n_units self).

(* no [sample] in the class body *)

End GaussianLayer.

(** ** Instances and method calls *)

Inductive instance : Type :=
| IBase (f : fields)
| IBernoulli (f : fields)
| IMultinomial (f : fields)
| IGaussian (f : fields) (sigma : tensor R).

Definition fields_of (self : instance) : fields :=
  match self with
  | IBase f | IBernoulli f | IMultinomial f | IGaussian f _ => f
  end.


(** A call: the method and its arguments. *)
Inductive args : Type :=
| Init (random_seed : option Z)
| Activation (x b : tensor R)
| MakeRand (batch_size : nat) (rng : RandomState)
| Sample (rand_data means : tensor R).


(** The objects a call can reach, as they are after the call. *)
Record post : Type := Post { post_self : instance; post_args : args }.

(** The methods of [BaseLayer], which every layer class inherits. *)
Definition base_method (self : instance) (a : args) : outcome * post :=
  let f := fields_of self in
  match a with
  | Init seed => (BaseLayer.init f seed, Post self a)
  | Activation x b => (BaseLayer.activation f x b, Post self a)
  | MakeRand n g =>
      let '(o, g') := BaseLayer.make_rand f n g in (o, Post self (MakeRand n g'))
  | Sample rd m => (BaseLayer.sample f rd m, Post self a)
  end.

(** The method found in the class body of [self], if the class defines it. *)
Definition own_method (rnd : tf_random) (self : instance) (a : args)
  : option (outcome * post) :=
  match self, a with
  | IBase _, _ => Some (base_method self a)
  | IBernoulli f, Init seed =>
      Some (Return (VTensor (BernoulliLayer.init rnd f seed)), Post self a)
  | IBernoulli f, Activation x b =>
      Some (Return (VTensor (BernoulliLayer.activation f x b)), Post self a)
  | IBernoulli f, MakeRand n g =>
      let '(t, g') := BernoulliLayer.make_rand f n g in
      Some (Return (VTensor t), Post self (MakeRand n g'))
  | IBernoulli f, Sample rd m =>
      Some (of_tensor (BernoulliLayer.sample f rd m), Post self a)
  | IMultinomial f, Init seed =>
      Some (of_tensor (MultinomialLayer.init rnd f seed), Post self a)
  | IMultinomial f, Activation x b =>
      Some (of_tensor (MultinomialLayer.activation f x b), Post self a)
  | IMultinomial f, MakeRand n g =>
      let '(t, g') := MultinomialLayer.make_rand f n g in
      Some (Return (VTensor t), Post self (MakeRand n g'))
  | IMultinomial f, Sample rd m =>
      Some (of_tensor (MultinomialLayer.sample f rd m), Post self a)
  | IGaussian f sg, Init seed =>
      Some (of_tensor (GaussianLayer.init rnd f sg seed), Post self a)
  | IGaussian f sg, Activation x b =>
      Some (of_tensor (GaussianLayer.activation f sg x b), Post self a)
  | IGaussian f sg, MakeRand n g =>
      let '(t, g') := GaussianLayer.make_rand f sg n g in
      Some (Return (VTensor t), Post self (MakeRand n g'))
  | IGaussian _ _, Sample _ _ => None
  end.

(** Attribute lookup: the class of the instance first, then its base class. *)
Definition call (rnd : tf_random) (self : instance) (a : args) : outcome * post :=
  match own_method rnd self a with
  | Some r => r
  | None => base_method self a
  end.


(** ** Notions used to state the properties *)

(** A shape [sa] (last axis first) broadcasts to [r]: axis by axis it has
    length 1 or the length of [r]. *)
Inductive fits_rev : list nat -> list nat -> Prop :=
| fits_nil : forall r, fits_rev [] r
| fits_cons : forall d d' ra r,
    d = 1%nat \/ d = d' -> fits_rev ra r -> fits_rev (d :: ra) (d' :: r).

Definition fits (sa s : list nat) : Prop := fits_rev (rev sa) (rev s).

(** Every dimension is representable in int32. *)
Definition int32_dims (s : list nat) : Prop :=
  Forall (fun d => (Z.of_nat d < 2 ^ 31)%Z) s.

(** Running sum of row [i] of a matrix up to column [j], inclusive. *)
Definition cumulative (means : tensor R) (i j : nat) : R :=
  sum_upto (S j) (fun k => get means [i; k]).

(** The random number that [rand_data] holds for row [i]: its entry in row
    [i] when it is a column (one number per row), itself when it is a
    scalar. *)
Definition row_number (rand_data : tensor R) (i : nat) : R :=
  match shape rand_data with
  | [] => get rand_data []
  | _ => get rand_data [i; 0%nat]
  end.

(** Row [i] of a matrix with [N] columns is a probability vector. *)
Definition prob_row (means : tensor R) (i N : nat) : Prop :=
  (forall k, (k < N)%nat -> 0 <= get means [i; k]) /\
  sum_upto N (fun k => get means [i; k]) = 1.

(** [j] is the first position at which [c] reaches [u]. *)
Definition first_reaching (c : nat -> R) (u : R) (j : nat) : Prop :=
  c j >= u /\ forall k, (k < j)%nat -> c k < u.

(** A source of draws that are all 1/2 (and normal draws all 0), used to
    evaluate the layers on concrete inputs. *)
Definition rnd_half : tf_random := TfRandom (fun _ _ => / 2) (fun _ _ => 0).


(** The deviation that [sigma] holds for unit [j]: the number itself when it
    is a scalar, its entry [j] when it is a vector. *)
Definition sigma_at (sigma : tensor R) (j : nat) : R :=
  match shape sigma with
  | [] => get sigma []
  | _ => get sigma [j]
  end.

(** ** Lemmas on iteration *)

Lemma fold_upto_ext {A} (op : A -> A -> A) (e : A) (n : nat) (f g : nat -> A) :
  (forall k, (k < n)%nat -> f k = g k) ->
  fold_upto op e n f = fold_upto op e n g.
Proof.
  induction n as [|n IH]; intros H; simpl; [reflexivity|].
  rewrite IH by (intros k Hk; apply H; lia).
  rewrite (H n) by lia. reflexivity.
Qed.

Lemma sum_upto_ext n f g :
  (forall k, (k < n)%nat -> f k = g k) -> sum_upto n f = sum_upto n g.
Proof. apply fold_upto_ext. Qed.

Lemma sum_upto_S n f : sum_upto (S n) f = sum_upto n f + f n.
Proof. reflexivity. Qed.


Lemma sum_upto_nonneg n f :
  (forall k, (k < n)%nat -> 0 <= f k) -> 0 <= sum_upto n f.
Proof.
  induction n as [|n IH]; intros H.
  - unfold sum_upto; simpl. lra.
  - rewrite sum_upto_S.
    assert (0 <= sum_upto n f) by (apply IH; intros; apply H; lia).
    assert (0 <= f n) by (apply H; lia). lra.
Qed.

Lemma sum_upto_pos n f :
  (0 < n)%nat -> (forall k, (k < n)%nat -> 0 < f k) -> 0 < sum_upto n f.
Proof.
  intros Hn H. destruct n as [|n]; [lia|].
  rewrite sum_upto_S.
  assert (0 <= sum_upto n f)
    by (apply sum_upto_nonneg; intros; apply Rlt_le, H; lia).
  assert (0 < f n) by (apply H; lia). lra.
Qed.


Lemma all_upto_true n f :
  (forall k, (k < n)%nat -> f k = true) -> all_upto n f = true.
Proof.
  induction n as [|n IH]; intros H; [reflexivity|].
  unfold all_upto in *; simpl.
  rewrite IH by (intros; apply H; lia).
  rewrite H by lia. reflexivity.
Qed.

(** A sum in which one position only can contribute. *)
Lemma sumZ_single n i (p : nat -> bool) (v : nat -> Z) :
  (i < n)%nat ->
  fold_upto Z.add 0%Z n (fun r => if (r =? i)%nat && p r then v r else 0%Z)
  = (if p i then v i else 0%Z).
Proof.
  intros Hi. induction n as [|n IH]; [lia|]. simpl.
  destruct (Nat.eq_dec i n) as [->|Hne].
  - rewrite Nat.eqb_refl. simpl.
    rewrite (fold_upto_ext _ _ n _ (fun _ => 0%Z)).
    + assert (Hz : forall m, fold_upto Z.add 0%Z m (fun _ => 0%Z) = 0%Z)
        by (induction m as [|m IHm]; simpl; [reflexivity | rewrite IHm; reflexivity]).
      rewrite Hz. reflexivity.
    + intros k Hk. destruct (Nat.eqb_spec k n); [lia | reflexivity].
  - rewrite IH by lia.
    destruct (Nat.eqb_spec n i); [lia|]. simpl. lia.
Qed.

(** ** Lemmas on broadcasting *)

Example broadcast_shape_matrix_vector :
  broadcast_shape [2; 3]%nat [3]%nat = Some [2; 3]%nat /\
  broadcast_shape [2; 3]%nat [2; 1]%nat = Some [2; 3]%nat /\
  broadcast_shape [2; 3]%nat [2]%nat = None /\
  bindex [1; 2]%nat [3]%nat = [2]%nat /\
  bindex [1; 2]%nat [2; 1]%nat = [1; 0]%nat.
Proof. repeat split. Qed.

Lemma bdim_same d : bdim d d = Some d.
Proof. unfold bdim. rewrite Nat.eqb_refl. reflexivity. Qed.

Lemma bdim_one_r d : bdim d 1 = Some d.
Proof.
  unfold bdim. destruct (Nat.eqb_spec d 1) as [->|H]; [reflexivity|].
  reflexivity.
Qed.

Lemma bdim_fits d1 d2 d :
  bdim d1 d2 = Some d -> (d1 = 1%nat \/ d1 = d) /\ (d2 = 1%nat \/ d2 = d).
Proof.
  unfold bdim.
  destruct (Nat.eqb_spec d1 d2); [intros [= <-]; subst; auto|].
  destruct (Nat.eqb_spec d1 1); [intros [= <-]; auto|].
  destruct (Nat.eqb_spec d2 1); [intros [= <-]; auto|].
  discriminate.
Qed.

Lemma bshape_rev_same r : bshape_rev r r = Some r.
Proof.
  induction r as [|d r IH]; [reflexivity|].
  simpl. rewrite bdim_same. simpl. rewrite IH. reflexivity.
Qed.

Lemma broadcast_shape_same s : broadcast_shape s s = Some s.
Proof.
  unfold broadcast_shape. rewrite bshape_rev_same. simpl.
  rewrite rev_involutive. reflexivity.
Qed.

Lemma fits_rev_refl r : fits_rev r r.
Proof. induction r; constructor; auto. Qed.

Lemma bshape_rev_fits r1 r2 r :
  bshape_rev r1 r2 = Some r -> fits_rev r1 r /\ fits_rev r2 r.
Proof.
  revert r2 r. induction r1 as [|d1 r1 IH]; intros r2 r H.
  - simpl in H. injection H as <-. split; [constructor | apply fits_rev_refl].
  - destruct r2 as [|d2 r2].
    + simpl in H. injection H as <-. split; [apply fits_rev_refl | constructor].
    + simpl in H. destruct (bdim d1 d2) as [d|] eqn:Hd; [|discriminate].
      simpl in H. destruct (bshape_rev r1 r2) as [r'|] eqn:Hr; [|discriminate].
      simpl in H. injection H as <-.
      apply bdim_fits in Hd. destruct Hd as [H1 H2].
      destruct (IH _ _ Hr) as [F1 F2].
      split; constructor; assumption.
Qed.

Lemma broadcast_shape_fits s1 s2 s :
  broadcast_shape s1 s2 = Some s -> fits s1 s /\ fits s2 s.
Proof.
  unfold broadcast_shape, fits. intros H.
  destruct (bshape_rev (rev s1) (rev s2)) as [r|] eqn:Hr; [|discriminate].
  simpl in H. injection H as <-. rewrite rev_involutive.
  apply bshape_rev_fits; assumption.
Qed.

Lemma fits_rev_trans r1 r2 r3 :
  fits_rev r1 r2 -> fits_rev r2 r3 -> fits_rev r1 r3.
Proof.
  intros H. revert r3. induction H as [r|d d' ra r Hd H IH]; intros r3 H3.
  - constructor.
  - inversion H3 as [|? d3 ? r3' Hd' H3']; subst.
    constructor; [|apply IH; assumption].
    destruct Hd as [->| ->]; [auto|]. destruct Hd' as [->| ->]; auto.
Qed.

Lemma fits_trans s1 s2 s3 : fits s1 s2 -> fits s2 s3 -> fits s1 s3.
Proof. unfold fits. apply fits_rev_trans. Qed.

Lemma bindex_rev_compose i ra r1 :
  fits_rev ra r1 -> bindex_rev (bindex_rev i r1) ra = bindex_rev i ra.
Proof.
  intros H. revert i. induction H as [r|d d' ra r Hd H IH]; intros i.
  - destruct (bindex_rev i r), i; reflexivity.
  - destruct i as [|i0 i]; [reflexivity|]. simpl. rewrite IH. f_equal.
    destruct (Nat.eqb_spec d 1); [reflexivity|].
    destruct Hd as [->| ->]; [lia|].
    destruct (Nat.eqb_spec d' 1); [lia | reflexivity].
Qed.

Lemma bindex_compose idx sa s1 :
  fits sa s1 -> bindex (bindex idx s1) sa = bindex idx sa.
Proof.
  unfold fits, bindex. intros H. rewrite rev_involutive.
  rewrite bindex_rev_compose by assumption. reflexivity.
Qed.

Lemma Forall2_lt_rev (l1 l2 : list nat) :
  Forall2 lt l1 l2 -> Forall2 lt (rev l1) (rev l2).
Proof.
  induction 1 as [|a b l1 l2 Hab H IH]; simpl; [constructor|].
  apply Forall2_app; [assumption | constructor; [assumption | constructor]].
Qed.

Lemma bindex_rev_in_range i ra r :
  Forall2 lt i r -> fits_rev ra r -> Forall2 lt (bindex_rev i ra) ra.
Proof.
  intros Hi. revert ra. induction Hi as [|i0 d' i r Hlt Hi IH]; intros ra Hf.
  - inversion Hf; subst. constructor.
  - inversion Hf as [|d ? ra' ? Hd Hf']; subst; [constructor|].
    simpl. constructor; [|apply IH; assumption].
    destruct (Nat.eqb_spec d 1); [lia|].
    destruct Hd as [->| ->]; [lia | assumption].
Qed.

Lemma bindex_in_range idx sa s :
  in_range idx s -> fits sa s -> in_range (bindex idx sa) sa.
Proof.
  unfold in_range, fits, bindex. intros Hi Hf.
  rewrite <- (rev_involutive sa) at 2.
  apply Forall2_lt_rev, bindex_rev_in_range with (r := rev s);
    [apply Forall2_lt_rev|]; assumption.
Qed.

Lemma bindex_rev_same i s : Forall2 lt i s -> bindex_rev i s = i.
Proof.
  induction 1 as [|i0 d i s Hlt H IH]; [reflexivity|].
  simpl. rewrite IH. f_equal.
  destruct (Nat.eqb_spec d 1); [lia | reflexivity].
Qed.

Lemma bindex_same idx s : in_range idx s -> bindex idx s = idx.
Proof.
  unfold in_range, bindex. intros H.
  rewrite bindex_rev_same by (apply Forall2_lt_rev; assumption).
  apply rev_involutive.
Qed.

Lemma broadcast_shape_nil_l s : broadcast_shape [] s = Some s.
Proof.
  unfold broadcast_shape. simpl. rewrite rev_involutive. reflexivity.
Qed.

Lemma broadcast_shape_nil_r s : broadcast_shape s [] = Some s.
Proof.
  unfold broadcast_shape. simpl.
  assert (H : forall r, bshape_rev r [] = Some r) by (intros [|? ?]; reflexivity).
  rewrite H. simpl. rewrite rev_involutive. reflexivity.
Qed.


(** ** Lemmas on int32 values and on [argmax] *)

Lemma wrap32_small z : (0 <= z < 2 ^ 31)%Z -> wrap32 z = z.
Proof.
  intros H. unfold wrap32. rewrite Z.mod_small; lia.
Qed.

Example argmax_first_of_ties :
  argmax_to (fun k => nth k [0; 1; 1; 0]%Z 0%Z) 3 = 1%nat.
Proof. reflexivity. Qed.

Lemma argmax_to_spec f n :
  (argmax_to f n <= n)%nat /\
  (forall k, (k <= n)%nat -> (f k <= f (argmax_to f n))%Z) /\
  (forall k, (k < argmax_to f n)%nat -> (f k < f (argmax_to f n))%Z).
Proof.
  induction n as [|n (IH1 & IH2 & IH3)]; simpl.
  - split; [lia|]. split; intros k Hk; [|lia].
    assert (k = 0)%nat by lia. subst. lia.
  - destruct (Z.ltb_spec (f (argmax_to f n)) (f (S n))) as [Hlt|Hge].
    + repeat split; [lia| |].
      * intros k Hk. destruct (Nat.eq_dec k (S n)) as [->|Hne]; [lia|].
        specialize (IH2 k). lia.
      * intros k Hk. specialize (IH2 k). lia.
    + repeat split; [lia| |assumption].
      intros k Hk. destruct (Nat.eq_dec k (S n)) as [->|Hne]; [lia|].
      apply IH2. lia.
Qed.

(** ** Activations *)

(** C3. For every input [x] and bias [b], [BernoulliLayer.activation(x, b)]
    is the elementwise logistic sigmoid of [x]: it has the shape of [x] and
    its entry at every position is 1 / (1 + exp(-x)) of the entry of [x]. *)
Theorem bernoulli_activation_is_sigmoid (self : fields) (x b : tensor R) :
  shape (BernoulliLayer.activation self x b) = shape x /\
  forall idx,
    get (BernoulliLayer.activation self x b) idx = 1 / (1 + exp (- get x idx)).
Proof. split; reflexivity. Qed.







(** C5. For every input [x] and bias [b] whose shapes broadcast with that of
    [sigma], [GaussianLayer.activation(x, b)] is defined and is, entry by
    entry, the interpolation x * sigma + b * (1 - sigma); its entries are
    those of [x] when sigma is 1 and those of [b] when sigma is 0. *)
Theorem gaussian_activation_interpolates
  (self : fields) (sigma x b : tensor R) (s1 s2 s : list nat) :
  broadcast_shape (shape x) (shape sigma) = Some s1 ->
  broadcast_shape (shape b) (shape sigma) = Some s2 ->
  broadcast_shape s1 s2 = Some s ->
  exists t,
    GaussianLayer.activation self sigma x b = Some t /\
    shape t = s /\
    (forall idx, in_range idx s ->
       get t idx =
       get x (bindex idx (shape x)) * get sigma (bindex idx (shape sigma)) +
       get b (bindex idx (shape b)) * (1 - get sigma (bindex idx (shape sigma)))) /\
    ((forall i, in_range i (shape sigma) -> get sigma i = 1) ->
     forall idx, in_range idx s -> get t idx = get x (bindex idx (shape x))) /\
    ((forall i, in_range i (shape sigma) -> get sigma i = 0) ->
     forall idx, in_range idx s -> get t idx = get b (bindex idx (shape b))).
Proof.
  intros H1 H2 H3.
  destruct (broadcast_shape_fits _ _ _ H1) as [Fx1 Fs1].
  destruct (broadcast_shape_fits _ _ _ H2) as [Fb2 Fs2].
  destruct (broadcast_shape_fits _ _ _ H3) as [F1 F2].
  assert (Hform : forall idx,
    get x (bindex (bindex idx s1) (shape x)) *
      get sigma (bindex (bindex idx s1) (shape sigma)) +
    get b (bindex (bindex idx s2) (shape b)) *
      (1 - get sigma (bindex (bindex (bindex idx s2) (shape sigma)) (shape sigma)))
    = get x (bindex idx (shape x)) * get sigma (bindex idx (shape sigma)) +
      get b (bindex idx (shape b)) * (1 - get sigma (bindex idx (shape sigma)))).
  { intros idx.
    rewrite (bindex_compose idx _ _ Fx1), (bindex_compose idx _ _ Fs1),
            (bindex_compose idx _ _ Fb2).
    rewrite (bindex_compose (bindex idx s2) (shape sigma) (shape sigma))
      by apply fits_rev_refl.
    rewrite (bindex_compose idx _ _ Fs2). reflexivity. }
  unfold GaussianLayer.activation, tf_multiply, tf_sub, tf_add, broadcast2.
  rewrite H1. cbn [obind shape scalar].
  rewrite broadcast_shape_nil_l. cbn [obind shape].
  rewrite H2. cbn [obind shape]. rewrite H3. cbn [obind].
  eexists. split; [reflexivity|]. split; [reflexivity|].
  cbn [get].
  assert (Hin : forall idx, in_range idx s ->
            in_range (bindex idx (shape sigma)) (shape sigma)).
  { intros idx Hidx. apply bindex_in_range with (s := s); [assumption|].
    apply fits_trans with (s2 := s1); assumption. }
  split; [|split].
  - intros idx _. apply Hform.
  - intros Hone idx Hidx. rewrite Hform, (Hone _ (Hin idx Hidx)). ring.
  - intros Hzero idx Hidx. rewrite Hform, (Hzero _ (Hin idx Hidx)). ring.
Qed.

Lemma gaussian_activation_interpolates_witness :
  let x := Tensor [2; 3]%nat (fun idx => INR (nth 1 idx 0%nat)) in
  let b := Tensor [3]%nat (fun _ => 5) in
  let sigma := scalar 1 in
  exists t,
    GaussianLayer.activation (Fields 3 float32) sigma x b = Some t /\
    shape t = [2; 3]%nat /\
    (forall idx, in_range idx [2; 3]%nat ->
       get t idx =
       get x (bindex idx (shape x)) * get sigma (bindex idx (shape sigma)) +
       get b (bindex idx (shape b)) * (1 - get sigma (bindex idx (shape sigma)))) /\
    ((forall i, in_range i (shape sigma) -> get sigma i = 1) ->
     forall idx, in_range idx [2; 3]%nat -> get t idx = get x (bindex idx (shape x))) /\
    ((forall i, in_range i (shape sigma) -> get sigma i = 0) ->
     forall idx, in_range idx [2; 3]%nat -> get t idx = get b (bindex idx (shape b))).
Proof.
  intros x b sigma.
  apply (gaussian_activation_interpolates (Fields 3 float32) sigma x b
           [2; 3]%nat [3]%nat [2; 3]%nat); reflexivity.
Defined.

(** C10. The activation of [BaseLayer], [BernoulliLayer] and
    [MultinomialLayer] does not depend on the bias: called with the same [x]
    and two biases it has the same outcome.  That of [GaussianLayer] does
    depend on it: there are a layer, an input and two biases with different
    results. *)
Theorem activation_bias_dependence :
  (forall rnd f x b1 b2,
     fst (call rnd (IBase f) (Activation x b1)) =
     fst (call rnd (IBase f) (Activation x b2))) /\
  (forall rnd f x b1 b2,
     fst (call rnd (IBernoulli f) (Activation x b1)) =
     fst (call rnd (IBernoulli f) (Activation x b2)) /\
     BernoulliLayer.activation f x b1 = BernoulliLayer.activation f x b2) /\
  (forall rnd f x b1 b2,
     fst (call rnd (IMultinomial f) (Activation x b1)) =
     fst (call rnd (IMultinomial f) (Activation x b2)) /\
     MultinomialLayer.activation f x b1 = MultinomialLayer.activation f x b2) /\
  (exists f sigma x b1 b2 t1 t2,
     GaussianLayer.activation f sigma x b1 = Some t1 /\
     GaussianLayer.activation f sigma x b2 = Some t2 /\
     get t1 [] <> get t2 []).
Proof.
  repeat split.
  exists (Fields 1 float32), (scalar 0), (scalar 0), (scalar 0), (scalar 1).
  eexists. eexists. split; [reflexivity|]. split; [reflexivity|].
  cbn. lra.
Qed.

(** ** Sampling *)

(** C7. For [rand_data] and [means] of equal shape,
    [BernoulliLayer.sample(rand_data, means)] is a tensor of that shape whose
    entry is 1 where [rand_data < means] and 0 elsewhere; every entry is 0
    or 1. *)
Theorem bernoulli_sample_binary (self : fields) (rand_data means : tensor R) :
  shape rand_data = shape means ->
  exists t,
    BernoulliLayer.sample self rand_data means = Some t /\
    shape t = shape means /\
    forall idx, in_range idx (shape means) ->
      (get rand_data idx < get means idx -> get t idx = 1) /\
      (~ get rand_data idx < get means idx -> get t idx = 0) /\
      (get t idx = 0 \/ get t idx = 1).
Proof.
  intros Hs.
  unfold BernoulliLayer.sample, tf_less, broadcast2.
  rewrite Hs, broadcast_shape_same. cbn [obind].
  eexists. split; [reflexivity|]. split; [reflexivity|].
  intros idx Hidx. cbn [get tf_cast_bool tmap].
  rewrite (bindex_same idx _ Hidx). unfold Rltb.
  destruct (Rlt_dec (get rand_data idx) (get means idx)) as [Hlt|Hnlt].
  - repeat split; [intros; contradiction | right; reflexivity].
  - repeat split; [intros; contradiction | left; reflexivity].
Qed.

Lemma bernoulli_sample_binary_witness :
  let rd := Tensor [2]%nat (fun idx => INR (hd 0%nat idx)) in
  let means := Tensor [2]%nat (fun _ => / 2) in
  shape rd = shape means /\
  exists t,
    BernoulliLayer.sample (Fields 2 float32) rd means = Some t /\
    shape t = shape means /\
    forall idx, in_range idx (shape means) ->
      (get rd idx < get means idx -> get t idx = 1) /\
      (~ get rd idx < get means idx -> get t idx = 0) /\
      (get t idx = 0 \/ get t idx = 1).
Proof.
  intros rd means. split; [reflexivity|].
  apply (bernoulli_sample_binary (Fields 2 float32) rd means). reflexivity.
Defined.

(** *** The steps of [MultinomialLayer.sample] on a matrix of means and a
    column of random numbers *)

Lemma in_range_2 i j B N : (i < B)%nat -> (j < N)%nat -> in_range [i; j] [B; N].
Proof. intros; repeat constructor; assumption. Qed.

Lemma bindex_col i j B : (i < B)%nat -> bindex [i; j] [B; 1%nat] = [i; 0%nat].
Proof.
  intros Hi. unfold bindex. simpl.
  destruct (Nat.eqb_spec B 1); [|reflexivity].
  f_equal. lia.
Qed.

Lemma broadcast_shape_col B N : broadcast_shape [B; N] [B; 1%nat] = Some [B; N].
Proof.
  unfold broadcast_shape. simpl. rewrite bdim_one_r, bdim_same. reflexivity.
Qed.

Lemma tf_cumsum_mat (t : tensor R) B N :
  shape t = [B; N] ->
  exists c, tf_cumsum t = Some c /\ shape c = [B; N] /\
    forall i j, get c [i; j] = sum_upto (S j) (fun k => get t [i; k]).
Proof.
  intros Hs. unfold tf_cumsum. rewrite Hs.
  eexists. split; [reflexivity|]. split; reflexivity.
Qed.

Lemma tf_greater_equal_col (c rd : tensor R) B N :
  shape c = [B; N] -> shape rd = [B; 1%nat] \/ shape rd = [] ->
  exists g, tf_greater_equal c rd = Some g /\ shape g = [B; N] /\
    forall i j, (i < B)%nat -> (j < N)%nat ->
      get g [i; j] = Rgeb (get c [i; j]) (row_number rd i).
Proof.
  intros Hc Hr. unfold tf_greater_equal, broadcast2, row_number. rewrite Hc.
  destruct Hr as [Hr|Hr]; rewrite Hr.
  - rewrite broadcast_shape_col. cbn [obind].
    eexists. split; [reflexivity|]. split; [reflexivity|].
    intros i j Hi Hj. cbn [get].
    rewrite (bindex_same [i; j] [B; N]) by (apply in_range_2; assumption).
    rewrite bindex_col by assumption. reflexivity.
  - rewrite broadcast_shape_nil_r. cbn [obind].
    eexists. split; [reflexivity|]. split; [reflexivity|].
    intros i j Hi Hj. cbn [get].
    rewrite (bindex_same [i; j] [B; N]) by (apply in_range_2; assumption).
    reflexivity.
Qed.

Lemma tf_argmax_mat (t : tensor Z) B n :
  shape t = [B; S n] ->
  exists a, tf_argmax t = Some a /\ shape a = [B] /\
    forall i, get a [i] = Z.of_nat (argmax_to (fun k => get t [i; k]) n).
Proof.
  intros Hs. unfold tf_argmax. rewrite Hs. cbn.
  eexists. split; [reflexivity|]. split; reflexivity.
Qed.

(** [tf.range(tf.shape(ind)[0])] for a vector [ind]. *)
Lemma tf_range_rows (ind : tensor Z) B :
  shape ind = [B] -> (Z.of_nat B < 2 ^ 31)%Z ->
  exists n0 rg, getitem0 (tf_shape ind) = Some n0 /\ tf_range n0 = Some rg /\
    shape rg = [B] /\ forall i, get rg [i] = Z.of_nat i.
Proof.
  intros Hs HB. unfold getitem0, tf_shape. rewrite Hs. cbn [shape length].
  eexists. eexists. split; [reflexivity|].
  unfold tf_range. cbn [shape get hd nth].
  rewrite wrap32_small by lia. rewrite Nat2Z.id.
  split; [reflexivity|]. split; reflexivity.
Qed.

Lemma tf_pack2_vec (a b : tensor Z) B :
  shape a = [B] -> shape b = [B] ->
  exists p, tf_pack2 a b = Some p /\ shape (tf_transpose p) = [B; 2%nat] /\
    forall i, get (tf_transpose p) [i; 0%nat] = get a [i] /\
              get (tf_transpose p) [i; 1%nat] = get b [i].
Proof.
  intros Ha Hb. unfold tf_pack2. rewrite Ha, Hb.
  destruct (list_eq_dec Nat.eq_dec [B] [B]) as [_|Hne]; [|congruence].
  eexists. split; [reflexivity|]. split; [reflexivity|].
  intros i. split; reflexivity.
Qed.

Lemma sumZ_idx_vec B f : sumZ_idx [B] f = fold_upto Z.add 0%Z B (fun r => f [r]).
Proof. reflexivity. Qed.

Lemma all_idx_vec B f : all_idx [B] f = all_upto B (fun r => f [r]).
Proof. reflexivity. Qed.

Lemma tf_scatter_nd_rows (indices updates sh : tensor Z) B N :
  shape indices = [B; 2%nat] -> shape updates = [B] -> shape sh = [2%nat] ->
  get sh [0%nat] = Z.of_nat B -> get sh [1%nat] = Z.of_nat N ->
  (forall r, (r < B)%nat ->
     (0 <= get indices [r; 0%nat] < Z.of_nat B)%Z /\
     (0 <= get indices [r; 1%nat] < Z.of_nat N)%Z) ->
  exists t, tf_scatter_nd indices updates sh = Some t /\ shape t = [B; N] /\
    forall i j, get t [i; j] =
      fold_upto Z.add 0%Z B (fun r =>
        if ((get indices [r; 0%nat] =? Z.of_nat i)%Z &&
            (get indices [r; 1%nat] =? Z.of_nat j)%Z)%bool
        then get updates [r] else 0%Z).
Proof.
  intros Hi Hu Hsh H0 H1 Hin.
  unfold tf_scatter_nd, dims_of. rewrite Hsh.
  unfold all_upto at 1. cbn [fold_upto]. rewrite H0, H1.
  replace (0 <=? Z.of_nat B)%Z with true by (symmetry; apply Z.leb_le; lia).
  replace (0 <=? Z.of_nat N)%Z with true by (symmetry; apply Z.leb_le; lia).
  cbn [andb seq map obind]. rewrite H0, H1, !Nat2Z.id.
  rewrite Hi, Hu. cbn [last removelast length Nat.leb negb skipn app].
  destruct (list_eq_dec Nat.eq_dec [B] [B]) as [_|Hne]; [|congruence].
  cbn [negb]. rewrite all_idx_vec.
  rewrite all_upto_true.
  2:{ intros r Hr. destruct (Hin r Hr) as [[A1 A2] [A3 A4]].
      unfold all_upto. cbn [fold_upto app nth].
      apply Z.leb_le in A1, A3. apply Z.ltb_lt in A2, A4.
      rewrite A1, A2, A3, A4. reflexivity. }
  cbn [negb]. eexists. split; [reflexivity|]. split; [reflexivity|].
  intros i j. cbn [get]. rewrite sumZ_idx_vec.
  apply fold_upto_ext. intros r Hr.
  unfold all_upto. cbn [fold_upto app nth skipn andb]. reflexivity.
Qed.


Lemma multinomial_sample_run self (rd means : tensor R) B n :
  shape means = [B; S n] -> shape rd = [B; 1%nat] \/ shape rd = [] ->
  (Z.of_nat B < 2 ^ 31)%Z -> (Z.of_nat (S n) < 2 ^ 31)%Z ->
  exists t,
    MultinomialLayer.sample self rd means = Some t /\
    shape t = [B; S n] /\
    forall i j, (i < B)%nat -> (j < S n)%nat ->
      get t [i; j] =
      if (argmax_to (fun k =>
            if Rgeb (cumulative means i k) (row_number rd i)
            then 1%Z else 0%Z) n =? j)%nat
      then 1 else 0.
Proof.
  intros Hm Hr HB HN.
  destruct (tf_cumsum_mat means B (S n) Hm) as (c & Hc & Hcs & Hcg).
  destruct (tf_greater_equal_col c rd B (S n) Hcs Hr) as (g & Hg & Hgs & Hgg).
  destruct (tf_argmax_mat (tf_to_int32_bool g) B n Hgs) as (a & Ha & Has & Hag).
  destruct (tf_range_rows (tf_to_int32 a) B Has HB)
    as (n0 & rg & Hn0 & Hrg & Hrgs & Hrgg).
  destruct (tf_pack2_vec (tf_to_int32 rg) (tf_to_int32 a) B Hrgs Has)
    as (p & Hp & Hps & Hpg).
  assert (Harg : forall r, (r < B)%nat ->
     get (tf_to_int32 a) [r] =
     Z.of_nat (argmax_to (fun k =>
        if Rgeb (cumulative means r k) (row_number rd r) then 1%Z else 0%Z) n)
     /\ (0 <= get (tf_to_int32 a) [r] < Z.of_nat (S n))%Z).
  { intros r Hlt. cbn [tf_to_int32 tmap get]. rewrite Hag.
    set (f := fun k => get (tf_to_int32_bool g) [r; k]).
    set (f' := fun k => if Rgeb (cumulative means r k) (row_number rd r)
                        then 1%Z else 0%Z).
    destruct (argmax_to_spec f n) as (Hle & _).
    assert (Hab : (0 <= Z.of_nat (argmax_to f n) < 2 ^ 31)%Z).
    { clearbody f f'. clear - Hle HN. lia. }
    rewrite wrap32_small by exact Hab.
    assert (Hff : forall m, (m <= n)%nat -> argmax_to f m = argmax_to f' m).
    { induction m as [|m IHm]; intros Hmn; [reflexivity|].
      simpl. rewrite IHm by lia.
      assert (Hp1 : forall k, (k <= n)%nat -> f k = f' k).
      { intros k Hk. unfold f, f'. cbn [tf_to_int32_bool tmap get].
        rewrite Hgg by lia. rewrite Hcg. reflexivity. }
      rewrite !Hp1; [reflexivity | lia |].
      destruct (argmax_to_spec f' m) as (Hle' & _). lia. }
    rewrite <- Hff by lia. split; [reflexivity | lia]. }
  destruct (tf_scatter_nd_rows (tf_transpose p) (tf_ones_like (tf_to_int32 rg))
              (tf_to_int32 (tf_shape c)) B (S n)) as (sc & Hsc & Hscs & Hscg).
  - exact Hps.
  - exact Hrgs.
  - cbn [tf_to_int32 tf_shape tmap shape]. rewrite Hcs. reflexivity.
  - cbn [tf_to_int32 tf_shape tmap get hd]. rewrite Hcs. cbn [nth].
    rewrite !(wrap32_small (Z.of_nat B)) by lia. reflexivity.
  - cbn [tf_to_int32 tf_shape tmap get hd]. rewrite Hcs. cbn [nth].
    rewrite !(wrap32_small (Z.of_nat (S n))) by lia. reflexivity.
  - intros r Hlt. destruct (Hpg r) as [-> ->].
    split; [|apply Harg; assumption].
    cbn [tf_to_int32 tmap get]. rewrite Hrgg. rewrite wrap32_small; lia.
  - unfold MultinomialLayer.sample.
    rewrite Hc. cbn [obind]. rewrite Hg. cbn [obind]. rewrite Ha. cbn [obind].
    rewrite Hn0. cbn [obind]. rewrite Hrg. cbn [obind]. rewrite Hp. cbn [obind].
    rewrite Hsc. cbn [obind].
    eexists. split; [reflexivity|]. split; [exact Hscs|].
    intros i j Hi Hj. cbn [tf_cast_int tmap get]. rewrite Hscg.
    rewrite (fold_upto_ext _ _ B _
      (fun r => if ((r =? i)%nat &&
                    (argmax_to (fun k =>
                       if Rgeb (cumulative means r k) (row_number rd r)
                       then 1%Z else 0%Z) n =? j)%nat)%bool
                then 1%Z else 0%Z)).
    + rewrite (sumZ_single B i
        (fun r => (argmax_to (fun k =>
                       if Rgeb (cumulative means r k) (row_number rd r)
                       then 1%Z else 0%Z) n =? j)%nat) (fun _ => 1%Z)) by assumption.
      destruct (_ =? j)%nat; reflexivity.
    + intros r Hlt. destruct (Hpg r) as [-> ->].
      destruct (Harg r Hlt) as [-> _].
      cbn [tf_to_int32 tf_ones_like tmap get]. rewrite Hrgg.
      rewrite wrap32_small by lia.
      replace (Z.of_nat r =? Z.of_nat i)%Z with (r =? i)%nat.
      2:{ destruct (Nat.eqb_spec r i), (Z.eqb_spec (Z.of_nat r) (Z.of_nat i));
            try reflexivity; lia. }
      match goal with |- context [(Z.of_nat ?u =? Z.of_nat j)%Z] =>
        replace (Z.of_nat u =? Z.of_nat j)%Z with (u =? j)%nat
      end.
      2:{ match goal with |- (?u =? j)%nat = _ =>
            destruct (Nat.eqb_spec u j), (Z.eqb_spec (Z.of_nat u) (Z.of_nat j));
            try reflexivity; lia end. }
      reflexivity.
Qed.

Lemma Rgeb_true x y : Rgeb x y = true <-> x >= y.
Proof. unfold Rgeb. destruct (Rge_dec x y); split; intros; auto; discriminate. Qed.

Lemma Rgeb_false x y : Rgeb x y = false <-> x < y.
Proof.
  unfold Rgeb. destruct (Rge_dec x y); split; intros;
    try discriminate; try lra; reflexivity.
Qed.

(** means = [[0.2, 0.5, 0.3]], rand_data = [[0.6]]: the running sums are
    0.2, 0.7, 1.0 and the sample is [[0, 1, 0]]. *)
Example multinomial_sample_example :
  let means := Tensor [1; 3]%nat (fun idx => nth (nth 1 idx 0%nat) [2/10; 5/10; 3/10] 0) in
  let rd := Tensor [1; 1]%nat (fun _ => 6/10) in
  exists t,
    MultinomialLayer.sample (Fields 3 float32) rd means = Some t /\
    shape t = [1; 3]%nat /\
    get t [0; 0]%nat = 0 /\ get t [0; 1]%nat = 1 /\ get t [0; 2]%nat = 0.
Proof.
  intros means rd.
  destruct (multinomial_sample_run (Fields 3 float32) rd means 1 2)
    as (t & Ht & Hs & Hg); try reflexivity; [left; reflexivity|].
  exists t. split; [exact Ht|]. split; [exact Hs|].
  assert (Harg : argmax_to (fun k =>
            if Rgeb (cumulative means 0 k) (row_number rd 0)
            then 1%Z else 0%Z) 2 = 1%nat).
  { assert (H0 : Rgeb (cumulative means 0 0) (row_number rd 0) = false)
      by (apply Rgeb_false; unfold cumulative, sum_upto, row_number; simpl; lra).
    assert (H1 : Rgeb (cumulative means 0 1) (row_number rd 0) = true)
      by (apply Rgeb_true; unfold cumulative, sum_upto, row_number; simpl; lra).
    assert (H2 : Rgeb (cumulative means 0 2) (row_number rd 0) = true)
      by (apply Rgeb_true; unfold cumulative, sum_upto, row_number; simpl; lra).
    cbn [argmax_to]. rewrite !H0, !H1. cbn [Z.ltb Z.compare]. rewrite ?H1, ?H2. reflexivity. }
  rewrite !Hg by lia. rewrite Harg. repeat split.
Qed.



(** ** Initial states *)






(** ** Method calls: what is returned, what is raised, what is left alone *)

(** C1. [BernoulliLayer.sample] and [MultinomialLayer.sample] hand back the
    tensor they compute, but [GaussianLayer] defines no [sample]: the call
    reaches [BaseLayer.sample], whose body is [pass], and returns [None] for
    every [rand_data] and [means]. *)
Theorem gaussian_sample_returns_none
  (rnd : tf_random) (f : fields) (sigma rand_data means : tensor R) :
  fst (call rnd (IGaussian f sigma) (Sample rand_data means)) = Return VNone /\
  fst (call rnd (IBernoulli f) (Sample rand_data means))
    = of_tensor (BernoulliLayer.sample f rand_data means) /\
  fst (call rnd (IMultinomial f) (Sample rand_data means))
    = of_tensor (MultinomialLayer.sample f rand_data means).
Proof. repeat split. Qed.

(** Operands that do not broadcast: the tensor library refuses them, which is
    neither a value nor an exception of the module. *)
Example bernoulli_sample_refused :
  fst (call rnd_half (IBernoulli (Fields 2 float32))
         (Sample (Tensor [2]%nat (fun _ => 0)) (Tensor [3]%nat (fun _ => 0))))
  = Refused.
Proof. reflexivity. Qed.



(** * Further properties of the layers *)

(** ** Bernoulli layer: activation, sampling, drawing *)


Lemma sigmoid_mono v w : v <= w -> sigmoid v <= sigmoid w.
Proof.
  intros H. unfold sigmoid.
  pose proof (exp_pos (- v)). pose proof (exp_pos (- w)).
  assert (exp (- w) <= exp (- v)).
  { destruct (Req_dec v w) as [->|Hne]; [lra|].
    apply Rlt_le, exp_increasing. lra. }
  unfold Rdiv. rewrite !Rmult_1_l.
  apply Rinv_le_contravar; lra.
Qed.


(** X2. [BernoulliLayer.activation] is monotone: a larger input entry gives a
    larger (or equal) activation, whatever the biases. *)
Theorem bernoulli_activation_monotone
  (self : fields) (x x' b b' : tensor R) (idx idx' : list nat) :
  get x idx <= get x' idx' ->
  get (BernoulliLayer.activation self x b) idx
  <= get (BernoulliLayer.activation self x' b') idx'.
Proof. intros H. apply sigmoid_mono, H. Qed.

Lemma bernoulli_activation_monotone_witness :
  get (BernoulliLayer.activation (Fields 1 float32) (scalar 0) (scalar 0)) []
  <= get (BernoulliLayer.activation (Fields 1 float32) (scalar 1) (scalar 0)) [].
Proof.
  apply (bernoulli_activation_monotone (Fields 1 float32)
           (scalar 0) (scalar 1) (scalar 0) (scalar 0) [] []).
  simpl. lra.
Defined.

Lemma bernoulli_sample_entries (self : fields) (rd means : tensor R) :
  shape rd = shape means ->
  exists t,
    BernoulliLayer.sample self rd means = Some t /\
    shape t = shape means /\
    forall idx, in_range idx (shape means) ->
      get t idx = if Rltb (get rd idx) (get means idx) then 1 else 0.
Proof.
  intros Hs. unfold BernoulliLayer.sample, tf_less, broadcast2.
  rewrite Hs, broadcast_shape_same. cbn [obind].
  eexists. split; [reflexivity|]. split; [reflexivity|].
  intros idx Hidx. cbn [get tf_cast_bool tmap].
  rewrite (bindex_same idx _ Hidx). reflexivity.
Qed.

Lemma Rltb_true x y : Rltb x y = true <-> x < y.
Proof. unfold Rltb. destruct (Rlt_dec x y); split; intros; auto; discriminate. Qed.

Lemma Rltb_false x y : Rltb x y = false <-> ~ x < y.
Proof.
  unfold Rltb. destruct (Rlt_dec x y); split; intros;
    try discriminate; try contradiction; auto.
Qed.

(** X3. [BernoulliLayer.sample] is monotone in the means: with the same random
    numbers, raising the means entry by entry can only turn zeros of the
    sample into ones. *)
Theorem bernoulli_sample_monotone
  (self : fields) (rd means means' : tensor R) :
  shape rd = shape means -> shape means' = shape means ->
  (forall idx, in_range idx (shape means) -> get means idx <= get means' idx) ->
  exists t t',
    BernoulliLayer.sample self rd means = Some t /\
    BernoulliLayer.sample self rd means' = Some t' /\
    forall idx, in_range idx (shape means) -> get t idx <= get t' idx.
Proof.
  intros Hs Hs' Hle.
  destruct (bernoulli_sample_entries self rd means Hs) as (t & Ht & _ & Hg).
  destruct (bernoulli_sample_entries self rd means') as (t' & Ht' & _ & Hg');
    [congruence|].
  exists t, t'. split; [exact Ht|]. split; [exact Ht'|].
  intros idx Hidx. rewrite Hg by assumption.
  rewrite Hg' by (rewrite Hs'; assumption).
  specialize (Hle idx Hidx).
  destruct (Rltb (get rd idx) (get means idx)) eqn:E1,
           (Rltb (get rd idx) (get means' idx)) eqn:E2; try lra.
  apply Rltb_true in E1. apply Rltb_false in E2. lra.
Qed.

Lemma bernoulli_sample_monotone_witness :
  let rd := Tensor [2]%nat (fun _ => / 2) in
  let means := Tensor [2]%nat (fun _ => 0) in
  let means' := Tensor [2]%nat (fun _ => 1) in
  exists t t',
    BernoulliLayer.sample (Fields 2 float32) rd means = Some t /\
    BernoulliLayer.sample (Fields 2 float32) rd means' = Some t' /\
    forall idx, in_range idx (shape means) -> get t idx <= get t' idx.
Proof.
  intros rd means means'.
  apply (bernoulli_sample_monotone (Fields 2 float32) rd means means').
  - reflexivity.
  - reflexivity.
  - intros idx _. simpl. lra.
Defined.

(** X4. With random numbers in [0, 1), [BernoulliLayer.sample] gives 1 wherever
    the mean is at least 1 and 0 wherever the mean is at most 0. *)
Theorem bernoulli_sample_extremes
  (self : fields) (rd means : tensor R) :
  shape rd = shape means ->
  (forall idx, in_range idx (shape means) -> 0 <= get rd idx < 1) ->
  exists t,
    BernoulliLayer.sample self rd means = Some t /\
    forall idx, in_range idx (shape means) ->
      (1 <= get means idx -> get t idx = 1) /\
      (get means idx <= 0 -> get t idx = 0).
Proof.
  intros Hs Hrd.
  destruct (bernoulli_sample_entries self rd means Hs) as (t & Ht & _ & Hg).
  exists t. split; [exact Ht|].
  intros idx Hidx. rewrite Hg by assumption. specialize (Hrd idx Hidx).
  split; intros Hm.
  - replace (Rltb (get rd idx) (get means idx)) with true; [reflexivity|].
    symmetry. apply Rltb_true. lra.
  - replace (Rltb (get rd idx) (get means idx)) with false; [reflexivity|].
    symmetry. apply Rltb_false. lra.
Qed.

Lemma bernoulli_sample_extremes_witness :
  let rd := Tensor [2]%nat (fun _ => / 2) in
  let means := Tensor [2]%nat (fun idx => INR (hd 0%nat idx)) in
  exists t,
    BernoulliLayer.sample (Fields 2 float32) rd means = Some t /\
    forall idx, in_range idx (shape means) ->
      (1 <= get means idx -> get t idx = 1) /\
      (get means idx <= 0 -> get t idx = 0).
Proof.
  intros rd means.
  apply (bernoulli_sample_extremes (Fields 2 float32) rd means).
  - reflexivity.
  - intros idx _. simpl. lra.
Defined.

Lemma broadcast_shape_mat_vec B N : broadcast_shape [B; N] [N] = Some [B; N].
Proof. unfold broadcast_shape. simpl. rewrite bdim_same. reflexivity. Qed.

Lemma bindex_mat_vec i j N : (j < N)%nat -> bindex [i; j] [N] = [j].
Proof.
  intros Hj. unfold bindex. simpl.
  destruct (Nat.eqb_spec N 1); [|reflexivity]. f_equal. lia.
Qed.

Lemma bdim_none d1 d2 :
  d1 <> d2 -> d1 <> 1%nat -> d2 <> 1%nat -> bdim d1 d2 = None.
Proof.
  intros H1 H2 H3. unfold bdim.
  destruct (Nat.eqb_spec d1 d2); [contradiction|].
  destruct (Nat.eqb_spec d1 1); [contradiction|].
  destruct (Nat.eqb_spec d2 1); [contradiction|]. reflexivity.
Qed.

Lemma bernoulli_sample_mat_vec (self : fields) (rd means : tensor R) (B N : nat) :
  shape rd = [B; N] -> shape means = [N] ->
  exists t,
    BernoulliLayer.sample self rd means = Some t /\
    shape t = [B; N] /\
    forall i j, (i < B)%nat -> (j < N)%nat ->
      get t [i; j] = if Rltb (get rd [i; j]) (get means [j]) then 1 else 0.
Proof.
  intros Hr Hm. unfold BernoulliLayer.sample, tf_less, broadcast2.
  rewrite Hr, Hm, broadcast_shape_mat_vec. cbn [obind].
  eexists. split; [reflexivity|]. split; [reflexivity|].
  intros i j Hi Hj. cbn [get tf_cast_bool tmap].
  rewrite (bindex_same [i; j] [B; N]) by (apply in_range_2; assumption).
  rewrite bindex_mat_vec by assumption. reflexivity.
Qed.

Lemma indicator_lt (a b : R) :
  ((if Rltb a b then 1 else 0) = 0 \/ (if Rltb a b then 1 else 0) = 1) /\
  ((if Rltb a b then 1 else 0) = 1 <-> a < b).
Proof.
  destruct (Rltb a b) eqn:E.
  - apply Rltb_true in E. split; [right; reflexivity|].
    split; intros; [assumption | reflexivity].
  - apply Rltb_false in E. split; [left; reflexivity|].
    split; intros H; [lra | contradiction].
Qed.

(** X5. [BernoulliLayer.sample] accepts one vector of means for a whole batch:
    for [rand_data] of shape (B, N) and [means] of shape (N,) the sample has
    shape (B, N), and its entry (i, j) is 1 exactly when
    [rand_data[i, j] < means[j]], 0 otherwise. *)
Theorem bernoulli_sample_batch_of_vector
  (self : fields) (rd means : tensor R) (B N : nat) :
  shape rd = [B; N] -> shape means = [N] ->
  exists t,
    BernoulliLayer.sample self rd means = Some t /\
    shape t = [B; N] /\
    forall i j, (i < B)%nat -> (j < N)%nat ->
      (get t [i; j] = 0 \/ get t [i; j] = 1) /\
      (get t [i; j] = 1 <-> get rd [i; j] < get means [j]).
Proof.
  intros Hr Hm.
  destruct (bernoulli_sample_mat_vec self rd means B N Hr Hm) as (t & Ht & Hs & Hg).
  exists t. split; [exact Ht|]. split; [exact Hs|].
  intros i j Hi Hj. rewrite (Hg i j Hi Hj). apply indicator_lt.
Qed.

Lemma bernoulli_sample_batch_of_vector_witness :
  let rd := Tensor [2; 3]%nat (fun _ => / 2) in
  let means := Tensor [3]%nat (fun idx => INR (hd 0%nat idx)) in
  exists t,
    BernoulliLayer.sample (Fields 3 float32) rd means = Some t /\
    shape t = [2; 3]%nat /\
    forall i j, (i < 2)%nat -> (j < 3)%nat ->
      (get t [i; j] = 0 \/ get t [i; j] = 1) /\
      (get t [i; j] = 1 <-> get rd [i; j] < get means [j]).
Proof.
  intros rd means.
  apply (bernoulli_sample_batch_of_vector (Fields 3 float32) rd means 2 3);
    reflexivity.
Defined.

(** X6. [BernoulliLayer.sample] has no result when the rows of [rand_data] and
    the vector [means] have different lengths, neither of them 1: the
    comparison is refused. *)
Theorem bernoulli_sample_length_mismatch
  (self : fields) (rd means : tensor R) (B N M : nat) :
  shape rd = [B; N] -> shape means = [M] ->
  N <> M -> N <> 1%nat -> M <> 1%nat ->
  BernoulliLayer.sample self rd means = None.
Proof.
  intros Hr Hm H1 H2 H3. unfold BernoulliLayer.sample, tf_less, broadcast2.
  rewrite Hr, Hm. unfold broadcast_shape. simpl.
  rewrite bdim_none by assumption. reflexivity.
Qed.

Lemma bernoulli_sample_length_mismatch_witness :
  BernoulliLayer.sample (Fields 3 float32)
    (Tensor [2; 3]%nat (fun _ => 0)) (Tensor [2]%nat (fun _ => 0)) = None.
Proof.
  apply (bernoulli_sample_length_mismatch (Fields 3 float32)
           (Tensor [2; 3]%nat (fun _ => 0)) (Tensor [2]%nat (fun _ => 0)) 2 3 2);
    first [reflexivity | lia].
Defined.

(** X7. The vector returned by [BernoulliLayer.init] holds numbers of [0, 1), and
    [BernoulliLayer.sample] accepts it as the means of a whole batch: for
    [rand_data] of shape (B, n_units) the sample has that shape and its
    entry (i, j) is 1 exactly when [rand_data[i, j]] is below draw [j]. *)
Theorem bernoulli_init_as_means
  (rnd : tf_random) (self : fields) (seed : option Z) (rd : tensor R) (B : nat) :
  uniform_ok rnd ->
  shape rd = [B; n_units self] ->
  (forall j, 0 <= get (BernoulliLayer.init rnd self seed) [j] < 1) /\
  exists t,
    BernoulliLayer.sample self rd (BernoulliLayer.init rnd self seed) = Some t /\
    shape t = [B; n_units self] /\
    forall i j, (i < B)%nat -> (j < n_units self)%nat ->
      (get t [i; j] = 1 <-> get rd [i; j] < uniform01 rnd seed j).
Proof.
  intros Hok Hr.
  assert (Hinit : forall j,
            get (BernoulliLayer.init rnd self seed) [j] = uniform01 rnd seed j).
  { intros j. cbn. ring. }
  split.
  - intros j. rewrite Hinit. apply Hok.
  - destruct (bernoulli_sample_mat_vec self rd (BernoulliLayer.init rnd self seed)
                B (n_units self) Hr eq_refl) as (t & Ht & Hs & Hg).
    exists t. split; [exact Ht|]. split; [exact Hs|].
    intros i j Hi Hj. rewrite (Hg i j Hi Hj), Hinit. apply indicator_lt.
Qed.

Lemma bernoulli_init_as_means_witness :
  let rd := Tensor [2; 3]%nat (fun _ => / 4) in
  (forall j, 0 <= get (BernoulliLayer.init rnd_half (Fields 3 float32) None) [j] < 1) /\
  exists t,
    BernoulliLayer.sample (Fields 3 float32) rd
      (BernoulliLayer.init rnd_half (Fields 3 float32) None) = Some t /\
    shape t = [2; n_units (Fields 3 float32)]%nat /\
    forall i j, (i < 2)%nat -> (j < n_units (Fields 3 float32))%nat ->
      (get t [i; j] = 1 <-> get rd [i; j] < uniform01 rnd_half None j).
Proof.
  intros rd.
  apply (bernoulli_init_as_means rnd_half (Fields 3 float32) None rd 2).
  - intros seed k. simpl. lra.
  - reflexivity.
Defined.



(** ** Multinomial layer: which position a row selects *)

Lemma sum_upto_indicator n m :
  (m < n)%nat -> sum_upto n (fun k => if (k =? m)%nat then 1 else 0) = 1.
Proof.
  induction n as [|n IH]; intros Hm; [lia|].
  rewrite sum_upto_S. destruct (Nat.eq_dec m n) as [->|Hne].
  - rewrite Nat.eqb_refl.
    rewrite (sum_upto_ext n _ (fun _ => 0)).
    + assert (Hz : forall p, sum_upto p (fun _ => 0) = 0).
      { induction p as [|p IHp]; [reflexivity|]. rewrite sum_upto_S, IHp. lra. }
      rewrite Hz. lra.
    + intros k Hk. destruct (Nat.eqb_spec k n); [lia | reflexivity].
  - rewrite IH by lia. destruct (Nat.eqb_spec n m); [lia | lra].
Qed.

Lemma argmax_to_none_larger f n :
  (forall k, (k <= n)%nat -> (f k <= f 0%nat)%Z) -> argmax_to f n = 0%nat.
Proof.
  induction n as [|n IH]; intros H; [reflexivity|].
  simpl. rewrite IH by (intros; apply H; lia).
  destruct (Z.ltb_spec (f 0%nat) (f (S n))) as [Hlt|]; [|reflexivity].
  specialize (H (S n) (Nat.le_refl _)). lia.
Qed.

Lemma first_reaching_unique c u j j' :
  first_reaching c u j -> first_reaching c u j' -> j = j'.
Proof.
  intros [H1 H2] [H1' H2'].
  destruct (Nat.lt_trichotomy j j') as [Hlt|[Heq|Hgt]]; [|assumption|].
  - specialize (H2' j Hlt). lra.
  - specialize (H2 j' Hgt). lra.
Qed.

(** The position selected in a row: the first one whose running sum reaches
    the random number, position 0 when none does. *)
Lemma multinomial_sample_selected (self : fields) (rd means : tensor R) B n :
  shape means = [B; S n] -> shape rd = [B; 1%nat] \/ shape rd = [] ->
  int32_dims [B; S n] ->
  exists t,
    MultinomialLayer.sample self rd means = Some t /\
    shape t = [B; S n] /\
    forall i, (i < B)%nat ->
      exists m, (m <= n)%nat /\
        (forall k, (k < S n)%nat -> get t [i; k] = if (k =? m)%nat then 1 else 0) /\
        ((exists k, (k <= n)%nat /\ cumulative means i k >= row_number rd i) ->
         first_reaching (cumulative means i) (row_number rd i) m) /\
        ((forall k, (k <= n)%nat -> cumulative means i k < row_number rd i) ->
         m = 0%nat).
Proof.
  intros Hm Hr Hdims.
  inversion Hdims as [|? ? HB Hd']; subst. inversion Hd' as [|? ? HN _]; subst.
  destruct (multinomial_sample_run self rd means B n Hm Hr HB HN)
    as (t & Ht & Hts & Htg).
  exists t. split; [exact Ht|]. split; [exact Hts|].
  intros i Hi.
  set (u := row_number rd i).
  set (f := fun k => if Rgeb (cumulative means i k) u then 1%Z else 0%Z).
  destruct (argmax_to_spec f n) as (Hle & Hmax & Hfirst).
  exists (argmax_to f n). split; [exact Hle|]. split; [|split].
  - intros k Hk. rewrite (Htg i k Hi Hk). fold u. fold f.
    rewrite Nat.eqb_sym. reflexivity.
  - intros (k & Hk & Hck).
    assert (Hfk : f k = 1%Z).
    { unfold f. apply Rgeb_true in Hck. fold u in Hck. rewrite Hck. reflexivity. }
    assert (Hfm : f (argmax_to f n) = 1%Z).
    { specialize (Hmax k Hk). rewrite Hfk in Hmax. unfold f in *.
      destruct (Rgeb (cumulative means i (argmax_to _ n)) u); [reflexivity | lia]. }
    split.
    + apply Rgeb_true. unfold f in Hfm at 1.
      destruct (Rgeb (cumulative means i (argmax_to f n)) u);
        [reflexivity | discriminate].
    + intros k' Hk'. apply Rgeb_false.
      specialize (Hfirst k' Hk'). rewrite Hfm in Hfirst. unfold f in Hfirst at 1.
      destruct (Rgeb (cumulative means i k') u); [lia | reflexivity].
  - intros Hnone. apply argmax_to_none_larger. intros k Hk.
    unfold f. specialize (Hnone k Hk). apply Rgeb_false in Hnone.
    fold u in Hnone. rewrite Hnone.
    destruct (Rgeb (cumulative means i 0) u); lia.
Qed.

(** X9. [MultinomialLayer.sample] always returns one-hot rows: for any matrix
    [means] with at least one column (probabilities or not) and
    [rand_data] a column or a scalar, every row of the sample consists of
    zeros and ones and sums to 1. *)
Theorem multinomial_sample_one_hot
  (self : fields) (rd means : tensor R) (B n : nat) :
  shape means = [B; S n] -> shape rd = [B; 1%nat] \/ shape rd = [] ->
  int32_dims [B; S n] ->
  exists t,
    MultinomialLayer.sample self rd means = Some t /\
    shape t = [B; S n] /\
    forall i, (i < B)%nat ->
      (forall k, (k < S n)%nat -> get t [i; k] = 0 \/ get t [i; k] = 1) /\
      sum_upto (S n) (fun k => get t [i; k]) = 1.
Proof.
  intros Hm Hr Hd.
  destruct (multinomial_sample_selected self rd means B n Hm Hr Hd)
    as (t & Ht & Hs & Hrow).
  exists t. split; [exact Ht|]. split; [exact Hs|].
  intros i Hi. destruct (Hrow i Hi) as (m & Hmn & Hg & _).
  split.
  - intros k Hk. rewrite Hg by assumption.
    destruct (k =? m)%nat; [right | left]; reflexivity.
  - rewrite (sum_upto_ext _ _ (fun k => if (k =? m)%nat then 1 else 0))
      by exact Hg.
    apply sum_upto_indicator. lia.
Qed.

Lemma multinomial_sample_one_hot_witness :
  let means := Tensor [1; 2]%nat (fun _ => / 2) in
  let rd := Tensor [1; 1]%nat (fun _ => / 4) in
  exists t,
    MultinomialLayer.sample (Fields 2 float32) rd means = Some t /\
    shape t = [1; 2]%nat /\
    forall i, (i < 1)%nat ->
      (forall k, (k < 2)%nat -> get t [i; k] = 0 \/ get t [i; k] = 1) /\
      sum_upto 2 (fun k => get t [i; k]) = 1.
Proof.
  intros means rd.
  apply (multinomial_sample_one_hot (Fields 2 float32) rd means 1 1).
  - reflexivity.
  - left. reflexivity.
  - repeat constructor.
Defined.



Lemma prob_row_reached (means : tensor R) i n u :
  prob_row means i (S n) -> u <= 1 ->
  exists k, (k <= n)%nat /\ cumulative means i k >= u.
Proof.
  intros [_ Hsum] Hu. exists n. split; [lia|].
  unfold cumulative. rewrite Hsum. lra.
Qed.






(** X13. On a row of probabilities, [MultinomialLayer.sample] never selects a
    position after the first whose probability is 0. *)
Theorem multinomial_sample_skips_zero_probability
  (self : fields) (rd means : tensor R) (B n i j : nat) :
  shape means = [B; S n] ->
  shape rd = [B; 1%nat] \/ shape rd = [] ->
  int32_dims [B; S n] ->
  (i < B)%nat -> (S j < S n)%nat ->
  prob_row means i (S n) ->
  row_number rd i <= 1 ->
  get means [i; S j] = 0 ->
  exists t,
    MultinomialLayer.sample self rd means = Some t /\
    get t [i; S j] = 0.
Proof.
  intros Hm Hr Hd Hi Hj Hp Hu Hzero.
  destruct (multinomial_sample_selected self rd means B n Hm Hr Hd)
    as (t & Ht & _ & Hrow).
  destruct (Hrow i Hi) as (m & Hmn & Hg & Hfr & _).
  specialize (Hfr (prob_row_reached means i n _ Hp Hu)).
  destruct Hfr as [Hreach Hbelow].
  exists t. split; [exact Ht|]. rewrite Hg by assumption.
  destruct (Nat.eqb_spec (S j) m) as [<-|Hne]; [exfalso | reflexivity].
  specialize (Hbelow j (Nat.lt_succ_diag_r j)).
  assert (Heq : cumulative means i (S j) = cumulative means i j).
  { unfold cumulative. rewrite (sum_upto_S (S j)), Hzero. lra. }
  lra.
Qed.

Lemma multinomial_sample_skips_zero_probability_witness :
  let means := Tensor [1; 2]%nat (fun idx => INR (1 - nth 1 idx 0%nat)) in
  let rd := Tensor [1; 1]%nat (fun _ => / 4) in
  exists t,
    MultinomialLayer.sample (Fields 2 float32) rd means = Some t /\
    get t [0; 1]%nat = 0.
Proof.
  intros means rd.
  apply (multinomial_sample_skips_zero_probability (Fields 2 float32) rd means 1 1 0 0).
  - reflexivity.
  - left. reflexivity.
  - repeat constructor.
  - lia.
  - lia.
  - split.
    + intros k _. simpl. apply pos_INR.
    + unfold sum_upto. simpl. lra.
  - unfold row_number. simpl. lra.
  - reflexivity.
Defined.

(** X14. A random number equal to 0 makes [MultinomialLayer.sample] select
    position 0 of the row whenever [means[i, 0]] is not negative, also when
    that probability is 0. *)
Theorem multinomial_sample_zero_picks_first
  (self : fields) (rd means : tensor R) (B n i : nat) :
  shape means = [B; S n] ->
  shape rd = [B; 1%nat] \/ shape rd = [] ->
  int32_dims [B; S n] ->
  (i < B)%nat ->
  0 <= get means [i; 0%nat] ->
  row_number rd i = 0 ->
  exists t,
    MultinomialLayer.sample self rd means = Some t /\
    get t [i; 0%nat] = 1.
Proof.
  intros Hm Hr Hd Hi Hnn Hu.
  destruct (multinomial_sample_selected self rd means B n Hm Hr Hd)
    as (t & Ht & _ & Hrow).
  destruct (Hrow i Hi) as (m & Hmn & Hg & Hfr & _).
  assert (Hc0 : cumulative means i 0 >= row_number rd i).
  { unfold cumulative, sum_upto. simpl. lra. }
  destruct Hfr as [_ Hbelow]; [exists 0%nat; split; [lia | exact Hc0]|].
  exists t. split; [exact Ht|]. rewrite Hg by lia.
  destruct m as [|m']; [reflexivity|].
  specialize (Hbelow 0%nat (Nat.lt_0_succ m')). lra.
Qed.

Lemma multinomial_sample_zero_picks_first_witness :
  let means := Tensor [1; 2]%nat (fun idx => INR (nth 1 idx 0%nat)) in
  let rd := Tensor [1; 1]%nat (fun _ => 0) in
  exists t,
    MultinomialLayer.sample (Fields 2 float32) rd means = Some t /\
    get t [0; 0]%nat = 1.
Proof.
  intros means rd.
  apply (multinomial_sample_zero_picks_first (Fields 2 float32) rd means 1 1 0).
  - reflexivity.
  - left. reflexivity.
  - repeat constructor.
  - lia.
  - simpl. lra.
  - reflexivity.
Defined.


(** ** Multinomial layer: what [sample] needs of its operands *)

Lemma tf_cumsum_some (t c : tensor R) :
  tf_cumsum t = Some c -> shape t <> [] /\ shape c = shape t.
Proof.
  unfold tf_cumsum. destruct (shape t) as [|d s] eqn:E; [discriminate|].
  intros [= <-]. split; [discriminate | reflexivity].
Qed.

Lemma broadcast2_some {A B C} (f : A -> B -> C) a b t :
  broadcast2 f a b = Some t -> broadcast_shape (shape a) (shape b) = Some (shape t).
Proof.
  unfold broadcast2. destruct (broadcast_shape (shape a) (shape b)); [|discriminate].
  cbn [obind]. intros [= <-]. reflexivity.
Qed.

Lemma tf_argmax_some (t a : tensor Z) :
  tf_argmax t = Some a ->
  shape t <> [] /\ (exists n, last (shape t) 0%nat = S n) /\
  shape a = removelast (shape t).
Proof.
  unfold tf_argmax. destruct (shape t) as [|d s] eqn:E; [discriminate|].
  destruct (last (d :: s) 0%nat) as [|n] eqn:El; [discriminate|].
  intros [= <-]. split; [discriminate|]. split; [exists n; reflexivity | reflexivity].
Qed.

Lemma dims_of_some sh dims :
  dims_of sh = Some dims -> shape sh = [length dims].
Proof.
  unfold dims_of. destruct (shape sh) as [|k [|? ?]]; try discriminate.
  destruct (all_upto k _); [|discriminate].
  intros [= <-]. rewrite length_map, length_seq. reflexivity.
Qed.

Lemma tf_scatter_nd_some (indices updates sh t : tensor Z) :
  tf_scatter_nd indices updates sh = Some t ->
  shape sh = [length (shape t)] /\
  (last (shape indices) 0 <= length (shape t))%nat /\
  shape updates
  = removelast (shape indices) ++ skipn (last (shape indices) 0%nat) (shape t).
Proof.
  unfold tf_scatter_nd. destruct (dims_of sh) as [dims|] eqn:Hd; [|discriminate].
  cbn [obind]. destruct (shape indices) as [|d0 si] eqn:Hsi; [discriminate|].
  destruct (Nat.leb_spec (last (d0 :: si) 0%nat) (length dims)) as [Hle|];
    [|discriminate].
  cbn [negb].
  destruct (list_eq_dec Nat.eq_dec (shape updates) _) as [Hu|]; [|discriminate].
  cbn [negb]. destruct (all_idx _ _); [|discriminate]. cbn [negb].
  intros [= <-]. cbn [shape].
  split; [apply dims_of_some; assumption|]. split; assumption.
Qed.

Lemma last_snoc (l : list nat) d : last (l ++ [d]) 0%nat = d.
Proof. apply last_last. Qed.

Lemma bshape_rev_zero_head r2 r tl :
  bshape_rev (0%nat :: tl) r2 = Some r -> exists r', r = 0%nat :: r'.
Proof.
  destruct r2 as [|d2 r2]; simpl.
  - intros [= <-]. eexists; reflexivity.
  - unfold bdim. destruct (Nat.eqb_spec 0 d2).
    + cbn. destruct (bshape_rev tl r2); [|discriminate].
      cbn. intros [= <-]. eexists; reflexivity.
    + cbn. destruct (Nat.eqb_spec d2 1); [|discriminate].
      cbn. destruct (bshape_rev tl r2); [|discriminate].
      cbn. intros [= <-]. eexists; reflexivity.
Qed.

Lemma multinomial_sample_some_matrix
  (self : fields) (rd means t : tensor R) :
  MultinomialLayer.sample self rd means = Some t ->
  exists B n, shape means = [B; S n] /\ length (shape t) = 2%nat.
Proof.
  unfold MultinomialLayer.sample. intros H.
  destruct (tf_cumsum means) as [c|] eqn:Hc; [|discriminate]. cbn [obind] in H.
  destruct (tf_greater_equal c rd) as [g|] eqn:Hg; [|discriminate]. cbn [obind] in H.
  destruct (tf_argmax (tf_to_int32_bool g)) as [a|] eqn:Ha; [|discriminate].
  cbn [obind] in H.
  destruct (getitem0 (tf_shape (tf_to_int32 a))) as [n0|] eqn:Hn0; [|discriminate].
  cbn [obind] in H.
  destruct (tf_range n0) as [rg|] eqn:Hrg; [|discriminate]. cbn [obind] in H.
  destruct (tf_pack2 (tf_to_int32 rg) (tf_to_int32 a)) as [p|] eqn:Hp; [|discriminate].
  cbn [obind] in H.
  destruct (tf_scatter_nd _ _ _) as [sc|] eqn:Hsc; [|discriminate].
  cbn [obind] in H. injection H as <-.
  destruct (tf_cumsum_some _ _ Hc) as [Hne Hcs].
  apply broadcast2_some in Hg. rewrite Hcs in Hg.
  destruct (tf_argmax_some _ _ Ha) as (Hgne & [n Hlast] & Has).
  cbn [tf_to_int32_bool tmap shape] in Hgne, Hlast, Has.
  (* the index vector and the row numbers have the same shape, of rank 1 *)
  unfold tf_range in Hrg. destruct (shape n0); [|discriminate].
  injection Hrg as <-.
  unfold tf_pack2 in Hp. cbn [tf_to_int32 tmap shape] in Hp.
  destruct (list_eq_dec Nat.eq_dec _ (shape a)) as [Hra|]; [|discriminate].
  injection Hp as <-.
  destruct (tf_scatter_nd_some _ _ _ _ Hsc) as (Hsh & HK & Hupd).
  cbn [tf_transpose tf_to_int32 tf_ones_like tf_shape tmap shape rev app last
       removelast] in Hsh, HK, Hupd.
  injection Hsh as Hlen. rewrite Hcs in Hlen.
  injection Hupd as Hskip. symmetry in Hskip.
  assert (Hlen2 : length (shape sc) = 2%nat).
  { destruct (shape sc) as [|d0 [|d1 [|d2 l]]]; simpl in HK, Hskip;
      [lia | lia | reflexivity | discriminate Hskip]. }
  destruct (shape means) as [|B [|N [|? ?]]] eqn:Hm; simpl in Hlen; try lia.
  exists B. destruct N as [|N]; [exfalso | exists N; split; [reflexivity | exact Hlen2]].
  unfold broadcast_shape in Hg. cbn [rev app] in Hg.
  destruct (bshape_rev [0%nat; B] (rev (shape rd))) as [r|] eqn:Hr;
    cbn [obind] in Hg; [|discriminate Hg].
  injection Hg as Hg.
  destruct (bshape_rev_zero_head _ _ _ Hr) as [r' ->].
  simpl in Hg. rewrite <- Hg, last_snoc in Hlast. discriminate.
Qed.

(** ** Multinomial layer: the softmax of a batch *)

Lemma sum_upto_scale n f c :
  sum_upto n (fun k => f k * c) = sum_upto n f * c.
Proof.
  induction n as [|n IH].
  - unfold sum_upto; simpl. ring.
  - rewrite !sum_upto_S, IH. ring.
Qed.

Lemma sum_exp_pos n (f : nat -> R) : 0 < sum_upto (S n) (fun k => exp (f k)).
Proof. apply sum_upto_pos; [lia|]. intros. apply exp_pos. Qed.

Lemma multinomial_activation_mat (self : fields) (x b : tensor R) B n :
  shape x = [B; S n] ->
  exists t,
    MultinomialLayer.activation self x b = Some t /\
    shape t = [B; S n] /\
    forall i k, get t [i; k] =
      exp (get x [i; k]) / sum_upto (S n) (fun j => exp (get x [i; j])).
Proof.
  intros Hx. unfold MultinomialLayer.activation, tf_nn_softmax. rewrite Hx.
  eexists. split; [reflexivity|]. split; reflexivity.
Qed.


(** X15. [MultinomialLayer.activation] does not change a row when the same
    constant is added to all the inputs of that row. *)
Theorem multinomial_activation_shift_invariant
  (self : fields) (x x' b b' : tensor R) (B n i : nat) (c : R) :
  shape x = [B; S n] -> shape x' = [B; S n] ->
  (forall k, (k < S n)%nat -> get x' [i; k] = get x [i; k] + c) ->
  exists t t',
    MultinomialLayer.activation self x b = Some t /\
    MultinomialLayer.activation self x' b' = Some t' /\
    forall k, (k < S n)%nat -> get t' [i; k] = get t [i; k].
Proof.
  intros Hx Hx' Hshift.
  destruct (multinomial_activation_mat self x b B n Hx) as (t & Ht & _ & Hg).
  destruct (multinomial_activation_mat self x' b' B n Hx') as (t' & Ht' & _ & Hg').
  exists t, t'. split; [exact Ht|]. split; [exact Ht'|].
  intros k Hk. rewrite Hg, Hg'.
  rewrite (sum_upto_ext (S n) (fun j => exp (get x' [i; j]))
             (fun j => exp (get x [i; j]) * exp c))
    by (intros j Hj; rewrite Hshift by assumption; apply exp_plus).
  rewrite sum_upto_scale, Hshift by assumption. rewrite exp_plus.
  pose proof (sum_exp_pos n (fun j => get x [i; j])) as Hpos.
  pose proof (exp_pos c). field. lra.
Qed.

Lemma multinomial_activation_shift_invariant_witness :
  let x := Tensor [1; 2]%nat (fun idx => INR (nth 1 idx 0%nat)) in
  let x' := Tensor [1; 2]%nat (fun idx => INR (nth 1 idx 0%nat) + 5) in
  exists t t',
    MultinomialLayer.activation (Fields 2 float32) x x = Some t /\
    MultinomialLayer.activation (Fields 2 float32) x' x = Some t' /\
    forall k, (k < 2)%nat -> get t' [0%nat; k] = get t [0%nat; k].
Proof.
  intros x x'.
  apply (multinomial_activation_shift_invariant (Fields 2 float32) x x' x x 1 1 0 5).
  - reflexivity.
  - reflexivity.
  - intros k _. reflexivity.
Defined.

(** X16. [MultinomialLayer.activation] keeps the order within a row: a position
    with a larger input has a larger (or equal) probability. *)
Theorem multinomial_activation_order
  (self : fields) (x b : tensor R) (B n i k k' : nat) :
  shape x = [B; S n] ->
  get x [i; k] <= get x [i; k'] ->
  exists t,
    MultinomialLayer.activation self x b = Some t /\
    get t [i; k] <= get t [i; k'].
Proof.
  intros Hx Hle.
  destruct (multinomial_activation_mat self x b B n Hx) as (t & Ht & _ & Hg).
  exists t. split; [exact Ht|]. rewrite !Hg.
  pose proof (sum_exp_pos n (fun j => get x [i; j])) as Hpos.
  assert (exp (get x [i; k]) <= exp (get x [i; k'])).
  { destruct (Req_dec (get x [i; k]) (get x [i; k'])) as [->|Hne]; [lra|].
    apply Rlt_le, exp_increasing. lra. }
  unfold Rdiv. apply Rmult_le_compat_r; [|assumption].
  apply Rlt_le, Rinv_0_lt_compat, Hpos.
Qed.

Lemma multinomial_activation_order_witness :
  let x := Tensor [1; 2]%nat (fun idx => INR (nth 1 idx 0%nat)) in
  exists t,
    MultinomialLayer.activation (Fields 2 float32) x x = Some t /\
    get t [0; 0]%nat <= get t [0; 1]%nat.
Proof.
  intros x.
  apply (multinomial_activation_order (Fields 2 float32) x x 1 1 0 0 1).
  - reflexivity.
  - simpl. lra.
Defined.

(** X17. With two units the Multinomial layer is a Bernoulli layer: the first
    entry of [MultinomialLayer.activation] on a row [(a, b)] is
    [BernoulliLayer.activation] of [a - b]. *)
Theorem multinomial_two_units_is_bernoulli
  (self self' : fields) (x b d b' : tensor R) (B i : nat) :
  shape x = [B; 2%nat] ->
  get d [i] = get x [i; 0%nat] - get x [i; 1%nat] ->
  exists t,
    MultinomialLayer.activation self x b = Some t /\
    get t [i; 0%nat] = get (BernoulliLayer.activation self' d b') [i].
Proof.
  intros Hx Hd.
  destruct (multinomial_activation_mat self x b B 1 Hx) as (t & Ht & _ & Hg).
  exists t. split; [exact Ht|]. rewrite Hg.
  cbn [BernoulliLayer.activation tf_nn_sigmoid tmap get]. rewrite Hd.
  unfold sigmoid, sum_upto. cbn [fold_upto].
  replace (- (get x [i; 0%nat] - get x [i; 1%nat]))
    with (get x [i; 1%nat] + - get x [i; 0%nat]) by ring.
  rewrite exp_plus, exp_Ropp.
  pose proof (exp_pos (get x [i; 0%nat])). pose proof (exp_pos (get x [i; 1%nat])).
  field. split; nra.
Qed.

Lemma multinomial_two_units_is_bernoulli_witness :
  let x := Tensor [1; 2]%nat (fun idx => INR (nth 1 idx 0%nat)) in
  let d := Tensor [1]%nat (fun _ => - 1) in
  exists t,
    MultinomialLayer.activation (Fields 2 float32) x x = Some t /\
    get t [0; 0]%nat = get (BernoulliLayer.activation (Fields 1 float32) d d) [0%nat].
Proof.
  intros x d.
  apply (multinomial_two_units_is_bernoulli
           (Fields 2 float32) (Fields 1 float32) x x d d 1 0).
  - reflexivity.
  - simpl. lra.
Defined.

(** X18. On rows of a single entry [MultinomialLayer.activation] is constantly 1,
    whatever the input. *)
Theorem multinomial_single_unit_activation
  (self : fields) (x b : tensor R) (B i : nat) :
  shape x = [B; 1%nat] ->
  exists t,
    MultinomialLayer.activation self x b = Some t /\ get t [i; 0%nat] = 1.
Proof.
  intros Hx.
  destruct (multinomial_activation_mat self x b B 0 Hx) as (t & Ht & _ & Hg).
  exists t. split; [exact Ht|]. rewrite Hg.
  unfold sum_upto. cbn [fold_upto].
  pose proof (exp_pos (get x [i; 0%nat])). field. lra.
Qed.

Lemma multinomial_single_unit_activation_witness :
  let x := Tensor [3; 1]%nat (fun _ => 7) in
  exists t,
    MultinomialLayer.activation (Fields 1 float32) x x = Some t /\
    get t [2; 0]%nat = 1.
Proof.
  intros x.
  apply (multinomial_single_unit_activation (Fields 1 float32) x x 3 2).
  reflexivity.
Defined.




(** X20. [MultinomialLayer.sample] has no result unless [means] is a matrix with
    at least one column: means of another rank (a vector, a scalar, a
    rank-3 tensor) and means with rows of length 0 are refused, whatever
    [rand_data] is. *)
Theorem multinomial_sample_refuses_non_matrix
  (self : fields) (rd means : tensor R) :
  length (shape means) <> 2%nat \/ last (shape means) 0%nat = 0%nat ->
  MultinomialLayer.sample self rd means = None.
Proof.
  intros Hbad.
  destruct (MultinomialLayer.sample self rd means) as [t|] eqn:Hs; [|reflexivity].
  exfalso.
  destruct (multinomial_sample_some_matrix self rd means t Hs) as (B & n & Hm & _).
  rewrite Hm in Hbad. simpl in Hbad. destruct Hbad as [H|H]; [lia | discriminate].
Qed.

Lemma multinomial_sample_refuses_non_matrix_witness :
  MultinomialLayer.sample (Fields 3 float32)
    (scalar (/ 2)) (Tensor [3]%nat (fun _ => / 3)) = None.
Proof.
  apply (multinomial_sample_refuses_non_matrix (Fields 3 float32)
           (scalar (/ 2)) (Tensor [3]%nat (fun _ => / 3))).
  left. simpl. lia.
Defined.

(** X21. The result of [MultinomialLayer.init] is a vector of shape (n_units,),
    and [MultinomialLayer.sample] refuses it as [means], whatever
    [rand_data] is: [sample] needs a batch axis. *)
Theorem multinomial_init_is_not_a_batch
  (rnd : tf_random) (self : fields) (seed : option Z) (rd v : tensor R) :
  MultinomialLayer.init rnd self seed = Some v ->
  shape v = [n_units self] /\ MultinomialLayer.sample self rd v = None.
Proof.
  intros Hv.
  assert (Hs : shape v = [n_units self]).
  { unfold MultinomialLayer.init, tf_div, broadcast2, tf_reduce_sum, tf_identity in Hv.
    cbn [tf_random_uniform shape scalar] in Hv.
    rewrite broadcast_shape_nil_r in Hv. cbn [obind] in Hv.
    injection Hv as <-. reflexivity. }
  split; [exact Hs|].
  destruct (MultinomialLayer.sample self rd v) as [t|] eqn:Hsm; [|reflexivity].
  destruct (multinomial_sample_some_matrix self rd v t Hsm) as (B & n & Hm & _).
  congruence.
Qed.

Lemma multinomial_init_is_not_a_batch_witness :
  exists v,
    MultinomialLayer.init rnd_half (Fields 2 float32) None = Some v /\
    shape v = [n_units (Fields 2 float32)] /\
    MultinomialLayer.sample (Fields 2 float32) (scalar (/ 2)) v = None.
Proof.
  eexists. split; [reflexivity|].
  apply (multinomial_init_is_not_a_batch rnd_half (Fields 2 float32) None).
  reflexivity.
Defined.

(** ** Gaussian layer *)




(** X23. [GaussianLayer.activation] (scalar [sigma]) has no result when the bias
    vector and the rows of the input have different lengths, neither of
    them 1. *)
Theorem gaussian_activation_bias_mismatch
  (self : fields) (sigma x b : tensor R) (B n m : nat) :
  shape x = [B; n] -> shape b = [m] ->
  shape sigma = [] ->
  n <> m -> n <> 1%nat -> m <> 1%nat ->
  GaussianLayer.activation self sigma x b = None.
Proof.
  intros Hx Hb Hsg H1 H2 H3.
  unfold GaussianLayer.activation, tf_multiply, tf_sub, tf_add, broadcast2.
  rewrite Hx, Hb, Hsg. cbn [shape scalar].
  rewrite !broadcast_shape_nil_r. cbn [obind shape].
  rewrite broadcast_shape_nil_r. cbn [obind shape].
  unfold broadcast_shape. simpl. rewrite bdim_none by assumption. reflexivity.
Qed.

Lemma gaussian_activation_bias_mismatch_witness :
  GaussianLayer.activation (Fields 3 float32) (scalar 1)
    (Tensor [2; 3]%nat (fun _ => 0)) (Tensor [2]%nat (fun _ => 0)) = None.
Proof.
  apply (gaussian_activation_bias_mismatch (Fields 3 float32) (scalar 1)
           (Tensor [2; 3]%nat (fun _ => 0)) (Tensor [2]%nat (fun _ => 0)) 2 3 2);
    first [reflexivity | lia].
Defined.

(** X24. For [sigma] a scalar or a vector of shape (n_units,),
    [GaussianLayer.init] returns a vector of shape (n_units,) whose entry
    [j] is normal draw [j] times the sigma of unit [j]. *)
Theorem gaussian_init_scales_draws
  (rnd : tf_random) (self : fields) (sigma : tensor R) (seed : option Z) :
  shape sigma = [] \/ shape sigma = [n_units self] ->
  exists t,
    GaussianLayer.init rnd self sigma seed = Some t /\
    shape t = [n_units self] /\
    forall j, (j < n_units self)%nat ->
      get t [j] = std_normal rnd seed j * sigma_at sigma j.
Proof.
  intros Hsg. unfold GaussianLayer.init, tf_multiply, broadcast2, sigma_at.
  cbn [tf_random_normal shape].
  destruct Hsg as [Hsg|Hsg]; rewrite Hsg.
  - rewrite broadcast_shape_nil_r. cbn [obind].
    eexists. split; [reflexivity|]. split; [reflexivity|].
    intros j Hj. cbn [get].
    rewrite (bindex_same [j]) by (repeat constructor; assumption). reflexivity.
  - rewrite broadcast_shape_same. cbn [obind].
    eexists. split; [reflexivity|]. split; [reflexivity|].
    intros j Hj. cbn [get].
    rewrite (bindex_same [j]) by (repeat constructor; assumption). reflexivity.
Qed.

Lemma gaussian_init_scales_draws_witness :
  let self := Fields 2 float32 in
  let sigma := Tensor [2]%nat (fun _ => 3) in
  exists t,
    GaussianLayer.init rnd_half self sigma None = Some t /\
    shape t = [n_units self] /\
    forall j, (j < n_units self)%nat ->
      get t [j] = std_normal rnd_half None j * sigma_at sigma j.
Proof.
  intros self sigma.
  apply (gaussian_init_scales_draws rnd_half self sigma None).
  right. reflexivity.
Defined.

(** X25. [GaussianLayer.init] has no result when [sigma] is a vector whose
    length differs from [n_units], neither of them 1. *)
Theorem gaussian_init_sigma_mismatch
  (rnd : tf_random) (self : fields) (sigma : tensor R) (seed : option Z) (m : nat) :
  shape sigma = [m] ->
  n_units self <> m -> n_units self <> 1%nat -> m <> 1%nat ->
  GaussianLayer.init rnd self sigma seed = None.
Proof.
  intros Hsg H1 H2 H3. unfold GaussianLayer.init, tf_multiply, broadcast2.
  cbn [tf_random_normal shape]. rewrite Hsg.
  unfold broadcast_shape. simpl. rewrite bdim_none by assumption. reflexivity.
Qed.

Lemma gaussian_init_sigma_mismatch_witness :
  GaussianLayer.init rnd_half (Fields 3 float32)
    (Tensor [2]%nat (fun _ => 1)) None = None.
Proof.
  apply (gaussian_init_sigma_mismatch rnd_half (Fields 3 float32)
           (Tensor [2]%nat (fun _ => 1)) None 2);
    first [reflexivity | simpl; lia].
Defined.
